(** * image_analyzer.py: the per-image pipeline of the Rekognition batch job

    A shallow embedding of [src/image_analyzer.py].  Python values are a small
    dynamically typed universe ([PyVal]); the three boto3 clients, the file
    system and the builtins [str] and [format] are operations of a [Runtime]
    record; the script itself runs in a state-and-exception monad whose state
    holds the outside world and the trace of everything the script printed or
    asked of a client.  The construction of the three clients (lines 20-22)
    comes before the loop and is not part of the model. *)

From Stdlib Require Import ZArith String Ascii List PrimFloat.
From stdpp Require Import gmap strings list fin_maps.

Set Warnings "-register-all,-inexact-float".

Local Open Scope Z_scope.
Local Open Scope string_scope.

(** ** String helpers of the Python runtime used by the script *)

Module Str.

(** [s.endswith(suffix)] *)
Fixpoint endswith (s suffix : string) : bool :=
  if String.eqb s suffix then true
  else match s with
       | EmptyString => false
       | String _ rest => endswith rest suffix
       end.

(** [s.endswith((suf1, suf2, ...))] *)
Definition endswith_any (s : string) (suffixes : list string) : bool :=
  existsb (endswith s) suffixes.

(** [s.startswith(prefix)] *)
Definition startswith (s prefix : string) : bool := String.prefix prefix s.

(** [s.split(sep)] for a one-character separator; never the empty list. *)
Fixpoint split (sep : ascii) (s : string) : list string :=
  match s with
  | EmptyString => [EmptyString]
  | String c rest =>
      if Ascii.eqb c sep then EmptyString :: split sep rest
      else match split sep rest with
           | [] => [String c EmptyString]
           | hd :: tl => String c hd :: tl
           end
  end.

(** [l[-1]] on a list of strings that is known not to be empty *)
Definition last_item (l : list string) : string := List.last l EmptyString.

(** [needle in hay] on two strings *)
Fixpoint contains (needle hay : string) : bool :=
  String.prefix needle hay
  || match hay with
     | EmptyString => false
     | String _ rest => contains needle rest
     end.

(** [c * n] *)
Fixpoint repeat (c : ascii) (n : nat) : string :=
  match n with
  | O => EmptyString
  | S k => String c (repeat c k)
  end.

(** [f"{s:<n}"] on a string: pad with spaces on the right up to width [n] *)
Definition ljust (n : nat) (s : string) : string :=
  s +:+ repeat " "%char (n - String.length s).

(** the one-character string [chr(10)] *)
Definition nl : string := String (ascii_of_nat 10) EmptyString.

(** the characters of a string, as [for c in s] yields them *)
Fixpoint chars (s : string) : list string :=
  match s with
  | EmptyString => []
  | String c rest => String c EmptyString :: chars rest
  end.

End Str.

(** ** [os.path] (posixpath) *)

Module os_path.

(** [os.path.basename(p)]: what follows the last slash *)
Definition basename (p : string) : string :=
  Str.last_item (Str.split "/"%char p).

(** [os.path.join(a, b)] *)
Definition join (a b : string) : string :=
  if Str.startswith b "/" then b
  else if String.eqb a "" || Str.endswith a "/" then a +:+ b
  else a +:+ "/" +:+ b.

End os_path.

(** ** Python values and exceptions *)

Inductive PyVal : Type :=
| PyNone
| PyBool (b : bool)
| PyInt (z : Z)
| PyFloat (f : float)
| PyStr (s : string)
| PyList (l : list PyVal)
| PyDict (d : gmap string PyVal).

(** The exception classes the script can meet.  [ClientError] is botocore's,
    the only class any [except] clause of the script names; it carries
    [str(e)]. *)
Inductive PyExc : Type :=
| ClientError (msg : string)
| KeyError (key : string)
| TypeError (msg : string)
| OtherException (cls msg : string).

Inductive PyResult (A : Type) : Type :=
| Ok (a : A)
| Raise (e : PyExc).
Arguments Ok {A} a.
Arguments Raise {A} e.

#[global] Instance PyResult_ret : MRet PyResult := fun A a => Ok a.
#[global] Instance PyResult_bind : MBind PyResult := fun A B f r =>
  match r with
  | Ok a => f a
  | Raise e => Raise e
  end.

Module Py.

(** [bool(v)], as [not v] uses it *)
Definition truthy (v : PyVal) : bool :=
  match v with
  | PyNone => false
  | PyBool b => b
  | PyInt z => negb (Z.eqb z 0)
  | PyFloat f => negb (PrimFloat.eqb f 0%float)
  | PyStr s => negb (String.eqb s "")
  | PyList l => match l with [] => false | _ :: _ => true end
  | PyDict d => negb (bool_decide (d = ∅))
  end.

(** [v is None] *)
Definition is_None (v : PyVal) : bool :=
  match v with
  | PyNone => true
  | _ => false
  end.

(** [v[key]] for a string key *)
Definition getitem (v : PyVal) (key : string) : PyResult PyVal :=
  match v with
  | PyDict d =>
      match d !! key with
      | Some x => Ok x
      | None => Raise (KeyError key)
      end
  | PyStr _ => Raise (TypeError "string indices must be integers")
  | PyList _ => Raise (TypeError "list indices must be integers or slices, not str")
  | _ => Raise (TypeError "object is not subscriptable")
  end.

(** [key in v] for a string key *)
Definition contains (key : string) (v : PyVal) : PyResult bool :=
  match v with
  | PyDict d => Ok (bool_decide (is_Some (d !! key)))
  | PyList l =>
      Ok (existsb (fun x => match x with
                            | PyStr s => String.eqb s key
                            | _ => false
                            end) l)
  | PyStr s => Ok (Str.contains key s)
  | _ => Raise (TypeError "argument is not iterable")
  end.

(** [iter(v)], run to the end: a list yields its items, a dict its keys (in
    the order of [map_to_list], where Python has insertion order), a string
    its characters. *)
Definition iter (v : PyVal) : PyResult (list PyVal) :=
  match v with
  | PyList l => Ok l
  | PyDict d => Ok (PyStr <$> (map_to_list d).*1)
  | PyStr s => Ok (PyStr <$> Str.chars s)
  | _ => Raise (TypeError "object is not iterable")
  end.

End Py.

(** [[f(x) for x in l]] with an [f] that can raise: the first exception ends
    the comprehension. *)
Fixpoint comprehension {A B : Type} (f : A → PyResult B) (l : list A)
  : PyResult (list B) :=
  match l with
  | [] => Ok []
  | x :: rest =>
      y ← f x;
      ys ← comprehension f rest;
      Ok (y :: ys)
  end.

(** ** The outside world *)

(** What the script prints and what it asks of the three clients, in order. *)
Inductive Event : Type :=
| Print (line : string)
| S3UploadFile (Filename : string) (Bucket : option string) (Key : string)
| RekognitionDetectLabels (Bucket : option string) (Name : string)
| DynamoDBPutItem (TableName : option string) (Item : PyVal).

(** The collaborators of the script, none of which is code of the repository:
    the builtins [str] and [format], [os.path.getsize] and [os.listdir], and
    the one method used of each boto3 client.  A client call takes the world
    to a new world and returns or raises. *)
Record Runtime (World : Type) : Type := {
  py_str : PyVal → string;
  py_format : PyVal → string → PyResult string;
  os_getsize : World → string → PyResult Z;
  os_listdir : World → string → PyResult (list string);
  s3_upload_file :
    World → string → option string → string → PyResult unit * World;
  rekognition_detect_labels :
    World → option string → string → PyResult PyVal * World;
  dynamodb_put_item :
    World → option string → PyVal → PyResult unit * World
}.
Arguments py_str {World} _ _.
Arguments py_format {World} _ _ _.
Arguments os_getsize {World} _ _ _.
Arguments os_listdir {World} _ _ _.
Arguments s3_upload_file {World} _ _ _ _ _.
Arguments rekognition_detect_labels {World} _ _ _ _.
Arguments dynamodb_put_item {World} _ _ _ _.

Record State (World : Type) : Type := mkState {
  world : World;
  trace : list Event
}.
Arguments mkState {World} _ _.
Arguments world {World} _.
Arguments trace {World} _.

(** A statement of the script: from a state to a result (a value or a raised
    exception) and the state it leaves. *)
Definition M (World : Type) (A : Type) : Type :=
  State World → PyResult A * State World.

#[global] Instance M_ret {World} : MRet (M World) := fun A a st => (Ok a, st).
#[global] Instance M_bind {World} : MBind (M World) := fun A B f m st =>
  match m st with
  | (Ok a, st') => f a st'
  | (Raise e, st') => (Raise e, st')
  end.

(** ** Module-level constants (lines 12-17) *)

Definition PREFIX : string := "rekognition-input/".
Definition IMAGES_FOLDER : string := "images/".

(** [os.getenv(key)] and [os.getenv(key, default)] over [os.environ] *)
Fixpoint getenv (environ : list (string * string)) (key : string)
  : option string :=
  match environ with
  | [] => None
  | (k, v) :: rest => if String.eqb k key then Some v else getenv rest key
  end.

Definition getenv_default (environ : list (string * string))
  (key dflt : string) : string :=
  match getenv environ key with
  | Some v => v
  | None => dflt
  end.

Record Config : Type := mkConfig {
  REGION : option string;
  BUCKET : option string;
  DYNAMODB : option string;
  BRANCH : string
}.

(** line 17 *)
Definition branch_of_ref (ref : string) : string :=
  Str.last_item (Str.split "/"%char ref).

Definition load_config (environ : list (string * string)) : Config :=
  {| REGION := getenv environ "AWS_REGION";
     BUCKET := getenv environ "S3_BUCKET";
     DYNAMODB := getenv environ "DYNAMODB_TABLE";
     BRANCH := branch_of_ref
                 (getenv_default environ "GITHUB_REF" "refs/heads/main") |}.

(** [f"{x}"] for a value that is a string or [None] *)
Definition fmt_opt (o : option string) : string :=
  match o with
  | Some s => s
  | None => "None"
  end.

(** [image_size_validator]'s default for [max_size] *)
Definition default_max_size : Z := 5242880.

(** the suffixes of line 114 *)
Definition image_suffixes : list string := [".jpg"; ".jpeg"; ".png"].

(** line 80: the attribute value written for a label, from the value under
    its ['Name'] and the string made of the value under its ['Confidence'] *)
Definition label_entry (name : PyVal) (confidence : string) : PyVal :=
  PyDict {[ "M" := PyDict
    (<[ "Name" := PyDict {[ "S" := name ]} ]>
       {[ "Confidence" := PyDict {[ "N" := PyStr confidence ]} ]}) ]}.

(** ** The script *)

Section Script.

Context {World : Type}.
Variable rt : Runtime World.
Variable cfg : Config.

Local Abbreviation M := (M World).

(** *** Primitive statements *)

Definition lift {A : Type} (r : PyResult A) : M A := fun st => (r, st).

Definition emit (e : Event) (st : State World) : State World :=
  mkState (world st) (trace st ++ [e]).

Definition print (line : string) : M unit := fun st => (Ok tt, emit (Print line) st).

Definition getsize (path : string) : M Z := fun st =>
  (os_getsize rt (world st) path, st).

Definition listdir (path : string) : M (list string) := fun st =>
  (os_listdir rt (world st) path, st).

Definition upload_file (Filename : string) (Bucket : option string)
  (Key : string) : M unit := fun st =>
  let '(r, w) := s3_upload_file rt (world st) Filename Bucket Key in
  (r, mkState w (trace st ++ [S3UploadFile Filename Bucket Key])).

Definition detect_labels (Bucket : option string) (Name : string)
  : M PyVal := fun st =>
  let '(r, w) := rekognition_detect_labels rt (world st) Bucket Name in
  (r, mkState w (trace st ++ [RekognitionDetectLabels Bucket Name])).

Definition put_item (TableName : option string) (Item : PyVal)
  : M unit := fun st =>
  let '(r, w) := dynamodb_put_item rt (world st) TableName Item in
  (r, mkState w (trace st ++ [DynamoDBPutItem TableName Item])).

(** [try: body / except ClientError as e: handler(str(e))]; an exception of
    any other class passes through. *)
Definition try_except_ClientError {A : Type} (body : M A)
  (handler : string → M A) : M A := fun st =>
  match body st with
  | (Raise (ClientError msg), st') => handler msg st'
  | other => other
  end.

(** [for x in l: body(x)]; an exception leaves the loop. *)
Fixpoint for_each {A : Type} (l : list A) (body : A → M unit) : M unit :=
  match l with
  | [] => mret tt
  | x :: rest => body x;; for_each rest body
  end.

(** *** upload_image_to_s3 (lines 24-42) *)

Definition upload_key (image_path : string) : string :=
  PREFIX +:+ os_path.basename image_path.

Definition upload_image_to_s3 (image_path : string) : M bool :=
  try_except_ClientError
    (upload_file image_path (BUCKET cfg) (upload_key image_path);;
     mret true)
    (fun e =>
       print ("Error uploading " +:+ image_path +:+ " to S3: " +:+ e);;
       mret false).

(** *** analyze_image_using_rekognition (lines 44-65) *)

Definition analysis_key (image_name : string) : string :=
  PREFIX +:+ image_name.

Definition analyze_image_using_rekognition (image_name : string)
  : M (PyVal * PyVal) :=
  try_except_ClientError
    (response ← detect_labels (BUCKET cfg) (analysis_key image_name);
     labels ← lift (Py.getitem response "Labels");
     mret (labels, response))
    (fun e =>
       print ("Error analyzing " +:+ image_name
              +:+ " with Rekognition: " +:+ e);;
       mret (PyList [], PyNone)).

(** *** store_results_in_dynamodb (lines 67-96) *)

(** line 80, one element of the comprehension *)
Definition label_attribute (label : PyVal) : PyResult PyVal :=
  name ← Py.getitem label "Name";
  confidence ← Py.getitem label "Confidence";
  Ok (label_entry name (py_str rt confidence)).

(** lines 79-82 *)
Definition labels_confidences (labels : PyVal) : PyResult (list PyVal) :=
  items ← Py.iter labels;
  comprehension label_attribute items.

(** lines 86-91 *)
Definition record_item (image_name : string) (attrs : list PyVal)
  (timestamp : PyVal) : PyVal :=
  PyDict
    (<[ "filename" := PyDict {[ "S" := PyStr image_name ]} ]>
    (<[ "Labels" := PyDict {[ "L" := PyList attrs ]} ]>
    (<[ "timestamp" := PyDict {[ "S" := timestamp ]} ]>
       {[ "branch" := PyDict {[ "S" := PyStr (BRANCH cfg) ]} ]}))).

Definition store_results_in_dynamodb (image_name : string) (labels : PyVal)
  (timestamp : PyVal) : M bool :=
  try_except_ClientError
    (attrs ← lift (labels_confidences labels);
     put_item (DYNAMODB cfg) (record_item image_name attrs timestamp);;
     mret true)
    (fun e =>
       print ("Error storing results for " +:+ image_name
              +:+ " in DynamoDB: " +:+ e);;
       mret false).

(** *** image_size_validator (lines 98-108) *)

Definition image_size_validator (image_path : string) (max_size : option Z)
  : M bool :=
  size ← getsize image_path;
  mret (size <=? default default_max_size max_size)%Z.

(** *** The main block (lines 111-153) *)

(** lines 141-142, the body of the loop that prints the table *)
Definition print_label_row (label : PyVal) : M unit :=
  has_name ← lift (Py.contains "Name" label);
  has_both ← (if has_name : bool then lift (Py.contains "Confidence" label)
              else mret false);
  if has_both : bool then
    name ← lift (Py.getitem label "Name");
    col1 ← lift (py_format rt name "<20");
    confidence ← lift (Py.getitem label "Confidence");
    col2 ← lift (py_format rt confidence "<15.2f");
    print (col1 +:+ " " +:+ col2)
  else mret tt.

(** lines 136-142 *)
Definition print_table (image : string) (labels : PyVal) : M unit :=
  print (Str.nl +:+ "Rekognition response for '" +:+ image +:+ "':");;
  print (Str.ljust 20 "Label" +:+ " " +:+ Str.ljust 15 "Confidence (%)");;
  print (Str.repeat "-"%char 35);;
  rows ← lift (Py.iter labels);
  for_each rows print_label_row.

(** line 145 *)
Definition response_timestamp (response : PyVal) : PyResult PyVal :=
  has_metadata ← Py.contains "ResponseMetadata" response;
  if has_metadata : bool then
    metadata ← Py.getitem response "ResponseMetadata";
    headers ← Py.getitem metadata "HTTPHeaders";
    Py.getitem headers "date"
  else Ok (PyStr "Unknown").

(** lines 135-151: what follows a successful analysis *)
Definition report_and_store (image : string) (labels response : PyVal)
  : M unit :=
  print_table image labels;;
  timestamp ← lift (response_timestamp response);
  stored ← store_results_in_dynamodb (os_path.basename image) labels timestamp;
  if stored : bool then
    print (Str.nl +:+ "Successfully stored results for '" +:+ image
           +:+ "' in DynamoDB.")
  else
    print ("Failed to store results for '" +:+ image +:+ "' in DynamoDB.").

(** lines 129-151: what follows a successful upload *)
Definition analyze_and_store (image image_path : string) : M unit :=
  '(labels, response) ← analyze_image_using_rekognition (os_path.basename image);
  if negb (Py.truthy labels) || Py.is_None response then
    print ("Failed to analyze " +:+ image_path +:+ ". Skipping analysis.")
  else report_and_store image labels response.

(** lines 122-151: what follows a successful size check *)
Definition upload_and_analyze (image image_path : string) : M unit :=
  print (Str.nl +:+ "Uploading " +:+ image_path +:+ " to S3 bucket "
         +:+ fmt_opt (BUCKET cfg) +:+ " with prefix " +:+ PREFIX);;
  uploaded ← upload_image_to_s3 image_path;
  if negb uploaded then
    print ("Failed to upload " +:+ image_path +:+ " to S3. Skipping analysis.")
  else analyze_and_store image image_path.

(** lines 115-151: the branch taken by a file with an image suffix *)
Definition pipeline (image : string) : M unit :=
  let image_path := os_path.join IMAGES_FOLDER image in
  valid ← image_size_validator image_path None;
  if negb valid then
    print ("Image " +:+ image_path +:+ " is too large. Skipping...")
  else upload_and_analyze image image_path.

(** lines 114-153: the body of the loop over the directory *)
Definition process_image (image : string) : M unit :=
  if Str.endswith_any image image_suffixes then pipeline image
  else print ("Skipping non-image file: " +:+ image).

(** line 113 on: the loop over a listing of the directory *)
Definition process_batch (images : list string) : M unit :=
  for_each images process_image.

Definition main : M unit :=
  images ← listdir IMAGES_FOLDER;
  process_batch images.

End Script.

(** lines 7-9, the dump of the environment *)
Definition dump_environment {World} (environ : list (string * string))
  : M World unit :=
  print "All Environment Variables:";;
  for_each environ (fun '(key, value) => print (key +:+ ": " +:+ value)).

(** The whole run: the dump, the constants, then the main block. *)
Definition script {World} (rt : Runtime World)
  (environ : list (string * string)) : M World unit :=
  dump_environment environ;;
  main rt (load_config environ).

(** ** The vocabulary of the statements *)

(** [emits P m]: from any state, [m] only appends to the trace, and every
    event it appends satisfies [P], whether [m] returns or raises. *)
Definition emits {World A : Type} (P : Event → Prop) (m : M World A) : Prop :=
  ∀ st, ∃ evs, trace (m st).2 = (trace st ++ evs)%list ∧ Forall P evs.

(** The events that belong to one file of the directory: any printed line,
    and the three client calls with the arguments the script derives from the
    file's name. *)
Definition event_of_image (cfg : Config) (image : string) (e : Event) : Prop :=
  match e with
  | Print _ => True
  | S3UploadFile Filename Bucket Key =>
      Filename = os_path.join IMAGES_FOLDER image
      ∧ Bucket = BUCKET cfg
      ∧ Key = PREFIX +:+ os_path.basename image
  | RekognitionDetectLabels Bucket Name =>
      Bucket = BUCKET cfg ∧ Name = PREFIX +:+ os_path.basename image
  | DynamoDBPutItem TableName Item =>
      TableName = DYNAMODB cfg
      ∧ ∃ attrs timestamp,
          Item = record_item cfg (os_path.basename image) attrs timestamp
  end.

Definition is_print (e : Event) : Prop :=
  match e with
  | Print _ => True
  | _ => False
  end.

Definition is_analysis (e : Event) : Prop :=
  match e with
  | RekognitionDetectLabels _ _ => True
  | _ => False
  end.

Definition is_store (e : Event) : Prop :=
  match e with
  | DynamoDBPutItem _ _ => True
  | _ => False
  end.

(** the line printed before the upload *)
Definition announce (cfg : Config) (image_path : string) : Event :=
  Print (Str.nl +:+ "Uploading " +:+ image_path +:+ " to S3 bucket "
         +:+ fmt_opt (BUCKET cfg) +:+ " with prefix " +:+ PREFIX).

(** A label is a dict carrying a value under ['Name'] and one under
    ['Confidence']. *)
Definition label_with (label name confidence : PyVal) : Prop :=
  ∃ d, label = PyDict d ∧ d !! "Name" = Some name
       ∧ d !! "Confidence" = Some confidence.

(** A dict that misses ['Name'] or ['Confidence'] *)
Definition lacks_key (d : gmap string PyVal) : Prop :=
  d !! "Name" = None ∨ d !! "Confidence" = None.

(** the client calls among some events, in order *)
Definition is_call (e : Event) : bool :=
  match e with
  | Print _ => false
  | _ => true
  end.

Definition calls_of (evs : list Event) : list Event := List.filter is_call evs.

(** [makes_calls P m]: from any state, [m] only appends to the trace, and the
    client calls among what it appends satisfy [P], whether [m] returns or
    raises. *)
Definition makes_calls {World A : Type} (P : list Event → Prop)
  (m : M World A) : Prop :=
  ∀ st, ∃ evs,
    trace (m st).2 = (trace st ++ evs)%list ∧ P (calls_of evs).

(** The client calls of one file, stage by stage: nothing, or the upload, or
    the upload and then the analysis, or these two and then one write. *)
Definition stage_prefix (cfg : Config) (image : string) (calls : list Event)
  : Prop :=
  let key := PREFIX +:+ os_path.basename image in
  let upload :=
    S3UploadFile (os_path.join IMAGES_FOLDER image) (BUCKET cfg) key in
  let analysis := RekognitionDetectLabels (BUCKET cfg) key in
  calls = [] ∨ calls = [upload] ∨ calls = [upload; analysis]
  ∨ ∃ attrs timestamp,
      calls = [ upload; analysis;
                DynamoDBPutItem (DYNAMODB cfg)
                  (record_item cfg (os_path.basename image) attrs timestamp) ].

(** the line printed for a file that is skipped for its name *)
Definition skip_line (image : string) : Event :=
  Print ("Skipping non-image file: " +:+ image).

(** the line of the dump for one variable of the environment *)
Definition environ_line (variable : string * string) : Event :=
  Print (variable.1 +:+ ": " +:+ variable.2).

(** What the table shows for a label that is a dict: nothing when a key is
    missing, otherwise the two formatted columns with a space between. *)
Definition row_of {World : Type} (rt : Runtime World) (label : PyVal)
  (row : option string) : Prop :=
  match row with
  | None => ∃ d, label = PyDict d ∧ lacks_key d
  | Some line =>
      ∃ name confidence col1 col2,
        label_with label name confidence
        ∧ py_format rt name "<20" = Ok col1
        ∧ py_format rt confidence "<15.2f" = Ok col2
        ∧ line = col1 +:+ " " +:+ col2
  end.

(** ** A concrete run: the directory of the specification's scenario

    [a.jpg] has 4 MiB, [b.png] has 6 MiB, [c.txt] is no image.  The world is
    the list of items the table has accepted so far. *)

Module Scenario.

Definition cat_labels : PyVal :=
  PyList
    [ PyDict (<[ "Name" := PyStr "Cat" ]>
                {[ "Confidence" := PyFloat 98.2%float ]});
      PyDict (<[ "Name" := PyStr "Animal" ]>
                {[ "Confidence" := PyFloat 95.0%float ]}) ].

Definition cat_response : PyVal :=
  PyDict
    (<[ "Labels" := cat_labels ]>
       {[ "ResponseMetadata" :=
            PyDict {[ "HTTPHeaders" :=
              PyDict {[ "date" := PyStr "Wed, 04 Nov 2026 10:00:00 GMT" ]} ]} ]}).

(** Python's [str] as a table over the values the scenario meets; any other
    float gets a placeholder. *)
Definition str (v : PyVal) : string :=
  match v with
  | PyStr s => s
  | PyFloat f =>
      if PrimFloat.eqb f 98.2%float then "98.2"
      else if PrimFloat.eqb f 95.0%float then "95.0"
      else "nan"
  | PyNone => "None"
  | PyBool true => "True"
  | PyBool false => "False"
  | _ => "object"
  end.

(** Python's [format] as a table over the values and the two format
    specifications the scenario meets *)
Definition format (v : PyVal) (spec : string) : PyResult string :=
  match v with
  | PyStr s =>
      if String.eqb spec "<20" then Ok (Str.ljust 20 s)
      else Raise (OtherException "ValueError" "Unknown format code")
  | PyFloat f =>
      if String.eqb spec "<15.2f" then
        if PrimFloat.eqb f 98.2%float then Ok (Str.ljust 15 "98.20")
        else if PrimFloat.eqb f 95.0%float then Ok (Str.ljust 15 "95.00")
        else Ok (Str.ljust 15 "nan")
      else Ok (Str.ljust 20 (str v))
  | _ => Raise (TypeError "unsupported format string")
  end.

Definition sizes (path : string) : PyResult Z :=
  if String.eqb path "images/a.jpg" then Ok 4194304
  else if String.eqb path "images/b.png" then Ok 6291456
  else if String.eqb path "images/c.txt" then Ok 12
  else if String.eqb path "images/d.jpeg" then Ok 1048576
  else Raise (OtherException "FileNotFoundError" path).

Definition listing : list string := ["a.jpg"; "b.png"; "c.txt"].

(** A runtime whose three clients answer every call the same way; the table
    keeps the items it accepts. *)
Definition make (files : list string) (upload : PyResult unit)
  (detect : PyResult PyVal) (put : PyResult unit) : Runtime (list PyVal) :=
  {| py_str := str;
     py_format := format;
     os_getsize := fun _ path => sizes path;
     os_listdir := fun _ _ => Ok files;
     s3_upload_file := fun w _ _ _ => (upload, w);
     rekognition_detect_labels := fun w _ _ => (detect, w);
     dynamodb_put_item := fun w _ item =>
       (put, match put with
             | Ok _ => (w ++ [item])%list
             | Raise _ => w
             end) |}.

(** every service is up *)
Definition rt : Runtime (list PyVal) :=
  make listing (Ok tt) (Ok cat_response) (Ok tt).

Definition environ : list (string * string) :=
  [ ("AWS_REGION", "us-east-1"); ("S3_BUCKET", "pixels");
    ("DYNAMODB_TABLE", "labels"); ("GITHUB_REF", "refs/heads/beta") ].

Definition cfg : Config := load_config environ.

Definition start : State (list PyVal) := mkState [] [].

End Scenario.

(** A service answer whose only label has a confidence and no name *)
Definition nameless_response : PyVal :=
  PyDict {[ "Labels" :=
    PyList [ PyDict {[ "Confidence" := PyFloat 98.2%float ]} ] ]}.


(** * Properties *)

(** ** Strings and paths *)

Section StringFacts.

Lemma append_nil_l (s : string) : "" +:+ s = s.
Proof. reflexivity. Qed.

Lemma append_cons (c : ascii) (s t : string) :
  String c s +:+ t = String c (s +:+ t).
Proof. reflexivity. Qed.

Lemma append_assoc (a b c : string) : (a +:+ b) +:+ c = a +:+ (b +:+ c).
Proof.
  induction a as [|x a IH]; [done|]. rewrite !append_cons. by f_equal.
Qed.

Lemma endswith_unfold (s suffix : string) :
  Str.endswith s suffix
  = if String.eqb s suffix then true
    else match s with
         | EmptyString => false
         | String _ rest => Str.endswith rest suffix
         end.
Proof. by destruct s. Qed.

Lemma endswith_refl (s : string) : Str.endswith s s = true.
Proof. by rewrite endswith_unfold, String.eqb_refl. Qed.

Lemma endswith_cons (c : ascii) (s suffix : string) :
  Str.endswith s suffix = true → Str.endswith (String c s) suffix = true.
Proof.
  intros H. rewrite endswith_unfold. by destruct (String.eqb _ _).
Qed.

(** [endswith] is the suffix relation. *)
Lemma endswith_spec (s suffix : string) :
  Str.endswith s suffix = true ↔ ∃ stem, s = stem +:+ suffix.
Proof.
  split.
  - induction s as [|c s IH]; rewrite endswith_unfold.
    + destruct (String.eqb_spec "" suffix) as [<-|]; [|done].
      intros _. by exists "".
    + destruct (String.eqb_spec (String c s) suffix) as [<-|_].
      * intros _. by exists "".
      * intros [stem ->]%IH. by exists (String c stem).
  - intros [stem ->]. induction stem as [|c stem IH].
    + apply endswith_refl.
    + rewrite append_cons. by apply endswith_cons.
Qed.

Lemma endswith_any_spec (s : string) (suffixes : list string) :
  Str.endswith_any s suffixes = true
  ↔ ∃ suffix stem, suffix ∈ suffixes ∧ s = stem +:+ suffix.
Proof.
  unfold Str.endswith_any. rewrite existsb_exists. split.
  - intros (suffix & Hin & [stem ->]%endswith_spec).
    exists suffix, stem. by rewrite list_elem_of_In.
  - intros (suffix & stem & Hin & ->). exists suffix. split.
    + by apply list_elem_of_In.
    + apply endswith_spec. by exists stem.
Qed.

Lemma split_nonempty (sep : ascii) (s : string) : Str.split sep s ≠ [].
Proof.
  destruct s as [|c s]; simpl; [done|].
  destruct (Ascii.eqb c sep); [done|]. by destruct (Str.split sep s).
Qed.

(** Splitting distributes over a separator in the middle. *)
Lemma split_app_sep (sep : ascii) (a b : string) :
  Str.split sep (a +:+ String sep b)
  = (Str.split sep a ++ Str.split sep b)%list.
Proof.
  induction a as [|c a IH].
  - rewrite append_nil_l. simpl. by rewrite Ascii.eqb_refl.
  - rewrite append_cons. simpl.
    destruct (Ascii.eqb c sep); [by rewrite IH|].
    rewrite IH. pose proof (split_nonempty sep a) as Hne.
    by destruct (Str.split sep a).
Qed.

Lemma last_app_nonempty {A : Type} (l1 l2 : list A) (d : A) :
  l2 ≠ [] → List.last (l1 ++ l2)%list d = List.last l2 d.
Proof.
  intros Hne. induction l1 as [|x l1 IH]; [done|].
  simpl app. rewrite <- IH. simpl.
  destruct (l1 ++ l2)%list eqn:E; [|done].
  apply app_eq_nil in E as [_ ->]. done.
Qed.

(** Only what follows the last separator matters. *)
Lemma last_split_app_sep (sep : ascii) (a b : string) :
  Str.last_item (Str.split sep (a +:+ String sep b))
  = Str.last_item (Str.split sep b).
Proof.
  unfold Str.last_item. rewrite split_app_sep.
  apply last_app_nonempty, split_nonempty.
Qed.

(** A string without the separator is one field. *)
Lemma split_no_sep (sep : ascii) (s : string) :
  (∀ a b, s ≠ a +:+ String sep b) → Str.split sep s = [s].
Proof.
  induction s as [|c s IH]; intros Hno; simpl; [done|].
  destruct (Ascii.eqb_spec c sep) as [->|Hc].
  - by destruct (Hno "" s).
  - rewrite IH; [done|]. intros a b ->. by destruct (Hno (String c a) b).
Qed.

Lemma basename_app_slash (dir name : string) :
  os_path.basename (dir +:+ String "/" name) = os_path.basename name.
Proof. apply last_split_app_sep. Qed.

(** [basename] undoes [join], whatever the directory. *)
Lemma basename_join (dir name : string) :
  os_path.basename (os_path.join dir name) = os_path.basename name.
Proof.
  unfold os_path.join.
  destruct (Str.startswith name "/"); [done|].
  destruct (String.eqb_spec dir "") as [->|_]; simpl orb; [done|].
  destruct (Str.endswith dir "/") eqn:E.
  - apply endswith_spec in E as [stem ->].
    rewrite append_assoc. apply basename_app_slash.
  - apply basename_app_slash.
Qed.

Lemma basename_no_slash (name : string) :
  (∀ a b, name ≠ a +:+ String "/" b) → os_path.basename name = name.
Proof.
  intros Hno. unfold os_path.basename. by rewrite split_no_sep.
Qed.

End StringFacts.

(** ** Running statements *)

Section MonadFacts.

Context {World : Type}.
Implicit Types st : State World.

Lemma bind_run {A B : Type} (m : M World A) (f : A → M World B) st :
  (m ≫= f) st = match m st with
                | (Ok a, st') => f a st'
                | (Raise e, st') => (Raise e, st')
                end.
Proof. reflexivity. Qed.

Lemma ret_run {A : Type} (a : A) st : (mret a : M World A) st = (Ok a, st).
Proof. reflexivity. Qed.

Lemma for_each_cons {A : Type} (x : A) (rest : list A)
  (body : A → M World unit) st :
  for_each (x :: rest) body st
  = match body x st with
    | (Ok _, st') => for_each rest body st'
    | (Raise e, st') => (Raise e, st')
    end.
Proof. reflexivity. Qed.

Lemma emits_nothing {A : Type} (P : Event → Prop) (m : M World A) :
  (∀ st, (m st).2 = st) → emits P m.
Proof.
  intros H st. exists []. rewrite H. split; [by rewrite app_nil_r | done].
Qed.

Lemma emits_ret {A : Type} (P : Event → Prop) (a : A) :
  emits P (mret a : M World A).
Proof. by apply emits_nothing. Qed.

Lemma emits_lift {A : Type} (P : Event → Prop) (r : PyResult A) :
  emits P (lift r : M World A).
Proof. by apply emits_nothing. Qed.

Lemma emits_weaken {A : Type} (P Q : Event → Prop) (m : M World A) :
  (∀ e, P e → Q e) → emits P m → emits Q m.
Proof.
  intros HPQ Hm st. destruct (Hm st) as (evs & Htr & Hall).
  exists evs. split; [done|]. eapply Forall_impl; eauto.
Qed.

Lemma emits_bind {A B : Type} (P : Event → Prop) (m : M World A)
  (f : A → M World B) :
  emits P m → (∀ a, emits P (f a)) → emits P (m ≫= f).
Proof.
  intros Hm Hf st. rewrite bind_run.
  destruct (Hm st) as (evs1 & Htr1 & Hall1).
  destruct (m st) as [[a|e] st1]; simpl in *.
  - destruct (Hf a st1) as (evs2 & Htr2 & Hall2).
    exists (evs1 ++ evs2)%list. rewrite Htr2, Htr1, app_assoc.
    split; [done | by apply Forall_app].
  - by exists evs1.
Qed.

Lemma emits_event (P : Event → Prop) (e : Event) :
  P e → emits P (fun st => (Ok tt, emit e st)).
Proof. intros He st. exists [e]. split; [done | by constructor]. Qed.

Lemma emits_print (P : Event → Prop) (line : string) :
  P (Print line) → emits P (print line : M World unit).
Proof. apply emits_event. Qed.

Lemma emits_try {A : Type} (P : Event → Prop) (body : M World A)
  (handler : string → M World A) :
  emits P body → (∀ msg, emits P (handler msg))
  → emits P (try_except_ClientError body handler).
Proof.
  intros Hbody Hhandler st. unfold try_except_ClientError.
  destruct (Hbody st) as (evs1 & Htr1 & Hall1).
  destruct (body st) as [[a|[msg|key|msg|cls msg]] st1]; simpl in *;
    try by exists evs1.
  destruct (Hhandler msg st1) as (evs2 & Htr2 & Hall2).
  exists (evs1 ++ evs2)%list. rewrite Htr2, Htr1, app_assoc.
  split; [done | by apply Forall_app].
Qed.

Lemma emits_for_each {A : Type} (P : Event → Prop) (l : list A)
  (body : A → M World unit) :
  (∀ x, x ∈ l → emits P (body x)) → emits P (for_each l body).
Proof.
  induction l as [|x l IH]; intros Hbody; simpl.
  - apply emits_ret.
  - apply emits_bind.
    + apply Hbody. by left.
    + intros _. apply IH. intros y Hy. apply Hbody. by right.
Qed.

End MonadFacts.

(** Runs the monad's operations on the state at hand. *)
Ltac run_script :=
  repeat first
    [ rewrite bind_run | rewrite ret_run
    | progress unfold lift, print, emit | progress simpl ];
  rewrite <- ?app_assoc; simpl.

(** ** What each function of the script adds to the trace *)

Section TraceFacts.

Context {World : Type}.
Variable rt : Runtime World.
Variable cfg : Config.
Variable P : Event → Prop.
Hypothesis P_print : ∀ line, P (Print line).

Ltac emits_seq :=
  repeat first
    [ apply emits_ret | apply emits_lift | apply emits_print, P_print
    | apply emits_bind; [|intros ?] | apply emits_try; [|intros ?] ].

Lemma emits_upload_file (Filename : string) (Bucket : option string)
  (Key : string) :
  P (S3UploadFile Filename Bucket Key)
  → emits P (upload_file rt Filename Bucket Key).
Proof.
  intros HP st. unfold upload_file. destruct (s3_upload_file _ _ _ _ _).
  exists [S3UploadFile Filename Bucket Key]. split; [done | by constructor].
Qed.

Lemma emits_detect_labels (Bucket : option string) (Name : string) :
  P (RekognitionDetectLabels Bucket Name)
  → emits P (detect_labels rt Bucket Name).
Proof.
  intros HP st. unfold detect_labels.
  destruct (rekognition_detect_labels _ _ _ _).
  exists [RekognitionDetectLabels Bucket Name]. split; [done | by constructor].
Qed.

Lemma emits_put_item (TableName : option string) (Item : PyVal) :
  P (DynamoDBPutItem TableName Item) → emits P (put_item rt TableName Item).
Proof.
  intros HP st. unfold put_item. destruct (dynamodb_put_item _ _ _ _).
  exists [DynamoDBPutItem TableName Item]. split; [done | by constructor].
Qed.

Lemma emits_upload_image_to_s3 (image_path : string) :
  P (S3UploadFile image_path (BUCKET cfg) (upload_key image_path))
  → emits P (upload_image_to_s3 rt cfg image_path).
Proof.
  intros HP. unfold upload_image_to_s3. emits_seq. by apply emits_upload_file.
Qed.

Lemma emits_analyze_image_using_rekognition (image_name : string) :
  P (RekognitionDetectLabels (BUCKET cfg) (analysis_key image_name))
  → emits P (analyze_image_using_rekognition rt cfg image_name).
Proof.
  intros HP. unfold analyze_image_using_rekognition. emits_seq.
  by apply emits_detect_labels.
Qed.

Lemma emits_store_results_in_dynamodb (image_name : string)
  (labels timestamp : PyVal) :
  (∀ attrs,
     P (DynamoDBPutItem (DYNAMODB cfg)
          (record_item cfg image_name attrs timestamp)))
  → emits P (store_results_in_dynamodb rt cfg image_name labels timestamp).
Proof.
  intros HP. unfold store_results_in_dynamodb. emits_seq.
  by apply emits_put_item.
Qed.

Lemma emits_image_size_validator (image_path : string) (max_size : option Z) :
  emits P (image_size_validator rt image_path max_size).
Proof.
  unfold image_size_validator. emits_seq. by apply emits_nothing.
Qed.

Lemma emits_print_label_row (label : PyVal) :
  emits P (print_label_row rt label).
Proof.
  unfold print_label_row. emits_seq.
  - destruct a; emits_seq.
  - destruct a0; emits_seq.
Qed.

Lemma emits_print_table (image : string) (labels : PyVal) :
  emits P (print_table rt image labels).
Proof.
  unfold print_table. emits_seq.
  apply emits_for_each. intros label _. apply emits_print_label_row.
Qed.

End TraceFacts.

Section PipelineTrace.

Context {World : Type}.
Variable rt : Runtime World.
Variable cfg : Config.

Ltac emits_seq :=
  repeat first
    [ apply emits_ret | apply emits_lift | by apply emits_print
    | apply emits_bind; [|intros ?] ].

(** Whatever happens to a file, the client calls made for it are the upload
    of [images/<file>] under the key [PREFIX + basename], the analysis of that
    same key, and the write of a record keyed by the basename. *)
Lemma emits_pipeline (image : string) :
  emits (event_of_image cfg image) (pipeline rt cfg image).
Proof.
  unfold pipeline. apply emits_bind; [by apply emits_image_size_validator|].
  intros valid. destruct valid; simpl negb; cbv iota; [|by apply emits_print].
  unfold upload_and_analyze. apply emits_bind; [by apply emits_print|].
  intros _. apply emits_bind.
  { apply emits_upload_image_to_s3; [done|]. simpl.
    unfold upload_key. by rewrite basename_join. }
  intros uploaded. destruct uploaded; simpl negb; cbv iota;
    [|by apply emits_print].
  unfold analyze_and_store. apply emits_bind.
  { by apply emits_analyze_image_using_rekognition. }
  intros [labels response].
  destruct (negb (Py.truthy labels) || Py.is_None response);
    [by apply emits_print|].
  unfold report_and_store. apply emits_bind; [by apply emits_print_table|].
  intros _. apply emits_bind; [apply emits_lift|].
  intros timestamp. apply emits_bind.
  { apply emits_store_results_in_dynamodb; [done|]. intros attrs. simpl. eauto. }
  intros stored. destruct stored; by apply emits_print.
Qed.

Lemma emits_process_image (image : string) :
  emits (event_of_image cfg image) (process_image rt cfg image).
Proof.
  unfold process_image. destruct (Str.endswith_any image image_suffixes).
  - apply emits_pipeline.
  - by apply emits_print.
Qed.

(** A file without an image suffix causes nothing but a printed line. *)
Lemma emits_process_other (image : string) :
  Str.endswith_any image image_suffixes = false
  → emits is_print (process_image rt cfg image).
Proof. intros H. unfold process_image. rewrite H. by apply emits_print. Qed.

(** Every event of a batch belongs to one of its files. *)
Lemma emits_process_batch (images : list string) :
  emits (fun e => ∃ image, image ∈ images ∧ event_of_image cfg image e)
    (process_batch rt cfg images).
Proof.
  unfold process_batch. apply emits_for_each. intros image Hin.
  eapply emits_weaken; [|apply emits_process_image]. simpl. eauto.
Qed.

End PipelineTrace.
(** ** The size validator *)

(** C3. For every file and every bound, [image_size_validator] returns [True]
    exactly when the size of the file is at most the bound, the bound being
    5,242,880 when none is given; it leaves the world and the trace as they
    were. *)
Theorem image_size_validator_spec {World : Type} (rt : Runtime World)
  (image_path : string) (max_size : option Z) (st : State World) (size : Z) :
  os_getsize rt (world st) image_path = Ok size →
  ∃ valid : bool,
    image_size_validator rt image_path max_size st = (Ok valid, st)
    ∧ (valid = true ↔ (size ≤ match max_size with
                                | Some bound => bound
                                | None => 5242880
                                end)%Z).
Proof.
  intros Hsize. eexists. split.
  - unfold image_size_validator, getsize. rewrite bind_run, Hsize.
    reflexivity.
  - destruct max_size; simpl; unfold default_max_size; apply Z.leb_le.
Qed.

Lemma image_size_validator_spec_witness :
  os_getsize Scenario.rt (world Scenario.start) "images/b.png" = Ok 6291456
  ∧ ∃ valid : bool,
      image_size_validator Scenario.rt "images/b.png" None Scenario.start
      = (Ok valid, Scenario.start)
      ∧ (valid = true ↔ (6291456 ≤ 5242880)%Z).
Proof.
  split; [reflexivity|].
  apply (image_size_validator_spec Scenario.rt "images/b.png" None
           Scenario.start 6291456).
  reflexivity.
Defined.

(** ** Object keys *)

Lemma upload_image_to_s3_first_event {World : Type} (rt : Runtime World)
  (cfg : Config) (image_path : string) (st : State World) :
  ∃ tail,
    trace (upload_image_to_s3 rt cfg image_path st).2
    = (trace st
       ++ S3UploadFile image_path (BUCKET cfg) (upload_key image_path)
          :: tail)%list.
Proof.
  unfold upload_image_to_s3, try_except_ClientError, upload_file.
  rewrite bind_run.
  destruct (s3_upload_file _ _ _ _ _) as [[[]|[msg|key|msg|cls msg]] w];
    simpl; try by exists [].
  eexists [_]. by rewrite <- app_assoc.
Qed.

Lemma analyze_image_first_event {World : Type} (rt : Runtime World)
  (cfg : Config) (image_name : string) (st : State World) :
  ∃ tail,
    trace (analyze_image_using_rekognition rt cfg image_name st).2
    = (trace st
       ++ RekognitionDetectLabels (BUCKET cfg) (analysis_key image_name)
          :: tail)%list.
Proof.
  unfold analyze_image_using_rekognition, try_except_ClientError,
    detect_labels.
  rewrite bind_run.
  destruct (rekognition_detect_labels _ _ _ _)
    as [[response|[msg|key|msg|cls msg]] w]; simpl; try by exists [].
  - rewrite bind_run. unfold lift.
    destruct (Py.getitem response "Labels") as [labels|[]]; simpl;
      first [by exists [] | eexists [_]; by rewrite <- app_assoc].
  - eexists [_]. by rewrite <- app_assoc.
Qed.

(** C4. The key under which a file is uploaded and the key under which it is
    analysed are both ["rekognition-input/"] followed by the basename of the
    file: the upload call of [upload_image_to_s3] carries that key for any
    path, the analysis call carries the prefix and the name it is given, every
    client call made for a file of the directory carries the key of that
    file, the upload key does not depend on the directory the file is joined
    to, and [cat.png] has the key ["rekognition-input/cat.png"]. *)
Theorem object_key_is_prefix_and_basename {World : Type} (rt : Runtime World)
  (cfg : Config) :
  (∀ image_path st, ∃ tail,
     trace (upload_image_to_s3 rt cfg image_path st).2
     = (trace st
        ++ S3UploadFile image_path (BUCKET cfg)
             ("rekognition-input/" +:+ os_path.basename image_path)
           :: tail)%list)
  ∧ (∀ image_name st, ∃ tail,
       trace (analyze_image_using_rekognition rt cfg image_name st).2
       = (trace st
          ++ RekognitionDetectLabels (BUCKET cfg)
               ("rekognition-input/" +:+ image_name)
             :: tail)%list)
  ∧ (∀ image st, ∃ evs,
       trace (process_image rt cfg image st).2 = (trace st ++ evs)%list
       ∧ Forall (event_of_image cfg image) evs)
  ∧ (∀ dir name,
       upload_key (os_path.join dir name)
       = "rekognition-input/" +:+ os_path.basename name
       ∧ analysis_key (os_path.basename name)
         = "rekognition-input/" +:+ os_path.basename name)
  ∧ (∀ dir,
       upload_key (os_path.join dir "cat.png") = "rekognition-input/cat.png")
  ∧ analysis_key (os_path.basename "cat.png") = "rekognition-input/cat.png".
Proof.
  split; [|split; [|split; [|split; [|split]]]].
  - intros. apply upload_image_to_s3_first_event.
  - intros. apply analyze_image_first_event.
  - intros image st. apply emits_process_image.
  - intros dir name. unfold upload_key. by rewrite basename_join.
  - intros dir. unfold upload_key. by rewrite basename_join.
  - reflexivity.
Qed.

(** ** The suffix filter *)

(** C5. A file enters the pipeline exactly when its name ends in [.jpg],
    [.jpeg] or [.png], letter case included: then the loop body is the
    pipeline, which starts with the size check; otherwise the loop body prints
    one line, leaves the world alone and returns, so that no stage runs. *)
Theorem suffix_filter_spec {World : Type} (rt : Runtime World) (cfg : Config)
  (image : string) :
  (Str.endswith_any image image_suffixes = true
   ↔ ∃ stem, image = stem +:+ ".jpg" ∨ image = stem +:+ ".jpeg"
             ∨ image = stem +:+ ".png")
  ∧ (Str.endswith_any image image_suffixes = true
     → process_image rt cfg image = pipeline rt cfg image)
  ∧ (Str.endswith_any image image_suffixes = false
     → ∀ st, process_image rt cfg image st
             = (Ok tt,
                mkState (world st)
                  (trace st ++ [Print ("Skipping non-image file: " +:+ image)])))
  ∧ Str.endswith_any "photo.JPG" image_suffixes = false.
Proof.
  split; [|split; [|split]].
  - rewrite endswith_any_spec. unfold image_suffixes. split.
    + intros (suffix & stem & Hin & ->). exists stem.
      apply list_elem_of_In in Hin. simpl in Hin.
      destruct Hin as [<- | [<- | [<- | []]]]; auto.
    + intros [stem Hstem].
      destruct Hstem as [-> | [-> | ->]]; eexists _, stem;
        (split; [|done]); apply list_elem_of_In; simpl; auto.
  - intros H. unfold process_image. by rewrite H.
  - intros H st. unfold process_image. by rewrite H.
  - reflexivity.
Qed.

Lemma suffix_filter_spec_witness :
  (Str.endswith_any "a.jpg" image_suffixes = true
   ∧ process_image Scenario.rt Scenario.cfg "a.jpg"
     = pipeline Scenario.rt Scenario.cfg "a.jpg")
  ∧ (Str.endswith_any "c.txt" image_suffixes = false
     ∧ process_image Scenario.rt Scenario.cfg "c.txt" Scenario.start
       = (Ok tt, mkState [] [Print "Skipping non-image file: c.txt"])).
Proof.
  split; (split; [reflexivity|]).
  - apply (suffix_filter_spec Scenario.rt Scenario.cfg "a.jpg"). reflexivity.
  - apply (suffix_filter_spec Scenario.rt Scenario.cfg "c.txt"). reflexivity.
Defined.

(** ** The analyzer *)

(** C6. When the service raises a [ClientError], the analyzer prints the error
    and returns the empty list and [None]; when the service answers, it
    returns the value under ['Labels'] as it is, and the answer itself. *)
Theorem analyze_image_using_rekognition_spec {World : Type}
  (rt : Runtime World) (cfg : Config) (image_name : string)
  (st : State World) :
  let call :=
    RekognitionDetectLabels (BUCKET cfg) ("rekognition-input/" +:+ image_name)
  in
  (∀ msg w,
     rekognition_detect_labels rt (world st) (BUCKET cfg)
       ("rekognition-input/" +:+ image_name)
     = (Raise (ClientError msg), w)
     → analyze_image_using_rekognition rt cfg image_name st
       = (Ok (PyList [], PyNone),
          mkState w
            (trace st
             ++ [call;
                 Print ("Error analyzing " +:+ image_name
                        +:+ " with Rekognition: " +:+ msg)])))
  ∧ (∀ response labels w,
       rekognition_detect_labels rt (world st) (BUCKET cfg)
         ("rekognition-input/" +:+ image_name)
       = (Ok (PyDict response), w)
       → response !! "Labels" = Some labels
       → analyze_image_using_rekognition rt cfg image_name st
         = (Ok (labels, PyDict response), mkState w (trace st ++ [call]))).
Proof.
  split.
  - intros msg w H.
    unfold analyze_image_using_rekognition, try_except_ClientError,
      detect_labels, analysis_key, PREFIX.
    rewrite bind_run, H. by run_script.
  - intros response labels w H Hlabels.
    unfold analyze_image_using_rekognition, try_except_ClientError,
      detect_labels, analysis_key, PREFIX.
    rewrite bind_run, H. run_script. by rewrite Hlabels.
Qed.

Lemma analyze_image_using_rekognition_spec_witness :
  analyze_image_using_rekognition
    (Scenario.make Scenario.listing (Ok tt)
       (Raise (ClientError "AccessDenied")) (Ok tt))
    Scenario.cfg "a.jpg" Scenario.start
  = (Ok (PyList [], PyNone),
     mkState []
       [RekognitionDetectLabels (Some "pixels") "rekognition-input/a.jpg";
        Print "Error analyzing a.jpg with Rekognition: AccessDenied"])
  ∧ analyze_image_using_rekognition Scenario.rt Scenario.cfg "a.jpg"
      Scenario.start
    = (Ok (Scenario.cat_labels, Scenario.cat_response),
       mkState []
         [RekognitionDetectLabels (Some "pixels") "rekognition-input/a.jpg"]).
Proof.
  split.
  - apply (analyze_image_using_rekognition_spec
             (Scenario.make Scenario.listing (Ok tt)
                (Raise (ClientError "AccessDenied")) (Ok tt))
             Scenario.cfg "a.jpg" Scenario.start).
    reflexivity.
  - eapply (proj2 (analyze_image_using_rekognition_spec Scenario.rt
                     Scenario.cfg "a.jpg" Scenario.start)).
    + reflexivity.
    + reflexivity.
Defined.

(** ** The recorder *)

Section Recorder.

Context {World : Type}.
Variable rt : Runtime World.
Variable cfg : Config.

Lemma label_attribute_ok (label name confidence : PyVal) :
  label_with label name confidence
  → label_attribute rt label = Ok (label_entry name (py_str rt confidence)).
Proof.
  intros (d & -> & Hname & Hconf). unfold label_attribute. simpl.
  by rewrite Hname, Hconf.
Qed.

(** The comprehension maps the labels one by one, in order. *)
Lemma labels_confidences_ok (labels : list PyVal)
  (pairs : list (PyVal * PyVal)) :
  Forall2 (fun label pair => label_with label pair.1 pair.2) labels pairs
  → labels_confidences rt (PyList labels)
    = Ok ((fun pair => label_entry pair.1 (py_str rt pair.2)) <$> pairs).
Proof.
  unfold labels_confidences. simpl.
  induction 1 as [|label [name confidence] labels pairs Hlabel _ IH]; simpl.
  - done.
  - by rewrite (label_attribute_ok _ _ _ Hlabel), IH.
Qed.

(** What the store does once the attributes are built: one [put_item] with
    the record, then [True], or the error line and [False]. *)
Lemma store_results_run (image_name : string) (labels timestamp : PyVal)
  (attrs : list PyVal) (st : State World) :
  labels_confidences rt labels = Ok attrs
  → let item := record_item cfg image_name attrs timestamp in
    store_results_in_dynamodb rt cfg image_name labels timestamp st
    = match dynamodb_put_item rt (world st) (DYNAMODB cfg) item with
      | (Ok _, w) =>
          (Ok true,
           mkState w (trace st ++ [DynamoDBPutItem (DYNAMODB cfg) item]))
      | (Raise (ClientError msg), w) =>
          (Ok false,
           mkState w
             (trace st
              ++ [DynamoDBPutItem (DYNAMODB cfg) item;
                  Print ("Error storing results for " +:+ image_name
                         +:+ " in DynamoDB: " +:+ msg)]))
      | (Raise e, w) =>
          (Raise e,
           mkState w (trace st ++ [DynamoDBPutItem (DYNAMODB cfg) item]))
      end.
Proof.
  intros Hattrs item.
  unfold store_results_in_dynamodb, try_except_ClientError, put_item.
  rewrite bind_run. unfold lift at 1. rewrite Hattrs, bind_run. fold item.
  destruct (dynamodb_put_item _ _ _ _) as [[[]|[msg|key|msg|cls msg]] w];
    by run_script.
Qed.

End Recorder.

(** C7. When every label is a dict with a name and a confidence, the record
    handed to the table holds under ['Labels'] one entry per label, in the
    order of the labels; the entry of a label is the map that holds the
    label's name under ['Name'] and ['S'] and [str] of its confidence under
    ['Confidence'] and ['N'], so that both can be read back from it; the
    labels [("Cat", 98.2), ("Animal", 95.0)] are stored in that order with
    those values. *)
Theorem stored_labels_preserve_order_and_values {World : Type}
  (rt : Runtime World) (cfg : Config) (image_name : string)
  (labels : list PyVal) (pairs : list (PyVal * PyVal)) (timestamp : PyVal)
  (st : State World) :
  Forall2 (fun label pair => label_with label pair.1 pair.2) labels pairs →
  let entries :=
    (fun pair : PyVal * PyVal =>
       PyDict {[ "M" := PyDict
         (<[ "Name" := PyDict {[ "S" := pair.1 ]} ]>
            {[ "Confidence" :=
                 PyDict {[ "N" := PyStr (py_str rt pair.2) ]} ]}) ]})
    <$> pairs in
  let item := record_item cfg image_name entries timestamp in
  let stored_name entry :=
    m ← Py.getitem entry "M"; n ← Py.getitem m "Name"; Py.getitem n "S" in
  let stored_confidence entry :=
    m ← Py.getitem entry "M"; c ← Py.getitem m "Confidence";
    Py.getitem c "N" in
  length entries = length labels
  ∧ (∀ i name confidence,
       pairs !! i = Some (name, confidence)
       → entries !! i
         = Some (PyDict {[ "M" := PyDict
                   (<[ "Name" := PyDict {[ "S" := name ]} ]>
                      {[ "Confidence" :=
                           PyDict {[ "N" := PyStr (py_str rt confidence) ]}
                      ]}) ]}))
  ∧ (∀ i label,
       labels !! i = Some label
       → ∃ entry,
           entries !! i = Some entry
           ∧ stored_name entry = Py.getitem label "Name"
           ∧ stored_confidence entry
             = (c ← Py.getitem label "Confidence"; Ok (PyStr (py_str rt c))))
  ∧ Py.getitem item "Labels" = Ok (PyDict {[ "L" := PyList entries ]})
  ∧ ∃ tail,
      trace (store_results_in_dynamodb rt cfg image_name (PyList labels)
               timestamp st).2
      = (trace st ++ DynamoDBPutItem (DYNAMODB cfg) item :: tail)%list.
Proof.
  intros Hlabels entries item stored_name stored_confidence.
  split; [|split; [|split; [|split]]].
  - unfold entries. rewrite length_fmap. symmetry.
    by eapply Forall2_length.
  - intros i name confidence Hi. unfold entries.
    by rewrite list_lookup_fmap, Hi.
  - intros i label Hi.
    destruct (Forall2_lookup_l _ _ _ _ _ Hlabels Hi)
      as ([name confidence] & Hpair & d & -> & Hname & Hconfidence).
    eexists. split.
    + unfold entries. by rewrite list_lookup_fmap, Hpair.
    + simpl in *. rewrite Hname, Hconfidence. split; reflexivity.
  - reflexivity.
  - rewrite (store_results_run rt cfg image_name (PyList labels) timestamp
               entries st (labels_confidences_ok rt labels pairs Hlabels)).
    fold item.
    destruct (dynamodb_put_item _ _ _ _) as [[[]|[msg|key|msg|cls msg]] w];
      simpl; eauto.
Qed.

Lemma stored_labels_preserve_order_and_values_witness :
  let stored (name confidence : string) : PyVal :=
    PyDict {[ "M" := PyDict
      (<[ "Name" := PyDict {[ "S" := PyStr name ]} ]>
         {[ "Confidence" := PyDict {[ "N" := PyStr confidence ]} ]}) ]} in
  let item :=
    record_item Scenario.cfg "a.jpg"
      [stored "Cat" "98.2"; stored "Animal" "95.0"] (PyStr "Unknown") in
  Forall2 (fun label pair => label_with label pair.1 pair.2)
    [ PyDict (<[ "Name" := PyStr "Cat" ]>
                {[ "Confidence" := PyFloat 98.2%float ]});
      PyDict (<[ "Name" := PyStr "Animal" ]>
                {[ "Confidence" := PyFloat 95.0%float ]}) ]
    [ (PyStr "Cat", PyFloat 98.2%float); (PyStr "Animal", PyFloat 95.0%float) ]
  ∧ Py.getitem item "Labels"
    = Ok (PyDict {[ "L" :=
            PyList [stored "Cat" "98.2"; stored "Animal" "95.0"] ]})
  ∧ ∃ tail,
      trace (store_results_in_dynamodb Scenario.rt Scenario.cfg "a.jpg"
               Scenario.cat_labels (PyStr "Unknown") Scenario.start).2
      = DynamoDBPutItem (Some "labels") item :: tail.
Proof.
  intros stored item.
  assert (Forall2 (fun label pair => label_with label pair.1 pair.2)
    [ PyDict (<[ "Name" := PyStr "Cat" ]>
                {[ "Confidence" := PyFloat 98.2%float ]});
      PyDict (<[ "Name" := PyStr "Animal" ]>
                {[ "Confidence" := PyFloat 95.0%float ]}) ]
    [ (PyStr "Cat", PyFloat 98.2%float); (PyStr "Animal", PyFloat 95.0%float) ])
    as Hlabels.
  { repeat constructor; eexists; (split; [reflexivity|]);
      split; reflexivity. }
  split; [exact Hlabels|].
  destruct (stored_labels_preserve_order_and_values Scenario.rt Scenario.cfg
              "a.jpg" _ _ (PyStr "Unknown") Scenario.start Hlabels)
    as (_ & _ & _ & Hitem & Hput).
  split; [exact Hitem | exact Hput].
Defined.

(** ** The timestamp *)

(** Only a dict can be read under a string key: an answer that has gone
    through the analyzer is one. *)
Lemma getitem_ok_dict (v x : PyVal) (key : string) :
  Py.getitem v key = Ok x → ∃ d, v = PyDict d ∧ d !! key = Some x.
Proof.
  destruct v as [| | | | |l|d]; simpl; try discriminate.
  destruct (d !! key) as [y|] eqn:Hkey; [|discriminate].
  intros [= ->]. eauto.
Qed.

(** C9. For an analysis response that is a dict without the key
    ['ResponseMetadata'] the timestamp is the string ["Unknown"]; with the key
    it is what lies under ['HTTPHeaders'] and then ['date'] of the metadata;
    the timestamp so obtained is the one handed to the store, and the record
    holds it under ['timestamp']. *)
Theorem response_timestamp_spec {World : Type} (rt : Runtime World)
  (cfg : Config) (response : gmap string PyVal) :
  (response !! "ResponseMetadata" = None
   → response_timestamp (PyDict response) = Ok (PyStr "Unknown"))
  ∧ (∀ metadata,
       response !! "ResponseMetadata" = Some metadata
       → response_timestamp (PyDict response)
         = (headers ← Py.getitem metadata "HTTPHeaders";
            Py.getitem headers "date"))
  ∧ (∀ metadata headers date,
       response !! "ResponseMetadata" = Some (PyDict metadata)
       → metadata !! "HTTPHeaders" = Some (PyDict headers)
       → headers !! "date" = Some date
       → response_timestamp (PyDict response) = Ok date)
  ∧ (∀ image labels attrs timestamp (st st1 : State World),
       print_table rt image labels st = (Ok tt, st1)
       → response_timestamp (PyDict response) = Ok timestamp
       → labels_confidences rt labels = Ok attrs
       → let item :=
           record_item cfg (os_path.basename image) attrs timestamp in
         Py.getitem item "timestamp" = Ok (PyDict {[ "S" := timestamp ]})
         ∧ ∃ tail,
             trace (report_and_store rt cfg image labels (PyDict response)
                      st).2
             = (trace st1 ++ DynamoDBPutItem (DYNAMODB cfg) item :: tail)%list).
Proof.
  split; [|split; [|split]].
  - intros H. unfold response_timestamp. simpl. by rewrite H.
  - intros metadata H. unfold response_timestamp. simpl. by rewrite H.
  - intros metadata headers date H1 H2 H3. unfold response_timestamp. simpl.
    rewrite H1. simpl. rewrite H2. simpl. by rewrite H3.
  - intros image labels attrs timestamp st st1 Htable Hts Hattrs item.
    split; [reflexivity|].
    unfold report_and_store. rewrite bind_run, Htable, bind_run.
    unfold lift at 1. rewrite Hts, bind_run.
    rewrite (store_results_run rt cfg _ labels timestamp attrs st1 Hattrs).
    fold item.
    destruct (dynamodb_put_item _ _ _ _) as [[[]|[msg|key|msg|cls msg]] w];
      run_script; eauto.
Qed.

Lemma response_timestamp_spec_witness :
  response_timestamp (PyDict {[ "Labels" := Scenario.cat_labels ]})
  = Ok (PyStr "Unknown")
  ∧ response_timestamp Scenario.cat_response
    = Ok (PyStr "Wed, 04 Nov 2026 10:00:00 GMT")
  ∧ ∃ tail,
      trace (report_and_store Scenario.rt Scenario.cfg "a.jpg"
               Scenario.cat_labels
               (PyDict {[ "Labels" := Scenario.cat_labels ]})
               Scenario.start).2
      = ([ Print (Str.nl +:+ "Rekognition response for 'a.jpg':");
           Print "Label                Confidence (%) ";
           Print "-----------------------------------";
           Print "Cat                  98.20          ";
           Print "Animal               95.00          " ]
         ++ DynamoDBPutItem (Some "labels")
              (record_item Scenario.cfg "a.jpg"
                 [ label_entry (PyStr "Cat") "98.2";
                   label_entry (PyStr "Animal") "95.0" ]
                 (PyStr "Unknown"))
            :: tail)%list.
Proof.
  split; [|split].
  - apply (response_timestamp_spec Scenario.rt Scenario.cfg
             {[ "Labels" := Scenario.cat_labels ]}).
    reflexivity.
  - eapply (proj1 (proj2 (proj2
             (response_timestamp_spec Scenario.rt Scenario.cfg _))));
      reflexivity.
  - assert (print_table Scenario.rt "a.jpg" Scenario.cat_labels Scenario.start
            = (Ok tt,
               mkState []
                 [ Print (Str.nl +:+ "Rekognition response for 'a.jpg':");
                   Print "Label                Confidence (%) ";
                   Print "-----------------------------------";
                   Print "Cat                  98.20          ";
                   Print "Animal               95.00          " ]))
      as Htable by reflexivity.
    assert (response_timestamp (PyDict {[ "Labels" := Scenario.cat_labels ]})
            = Ok (PyStr "Unknown")) as Htimestamp by reflexivity.
    assert (labels_confidences Scenario.rt Scenario.cat_labels
            = Ok [ label_entry (PyStr "Cat") "98.2";
                   label_entry (PyStr "Animal") "95.0" ])
      as Hattrs by reflexivity.
    destruct (proj2 (proj2 (proj2
               (response_timestamp_spec Scenario.rt Scenario.cfg
                  {[ "Labels" := Scenario.cat_labels ]})))
               "a.jpg" Scenario.cat_labels _ (PyStr "Unknown")
               Scenario.start _ Htable Htimestamp Hattrs) as [_ Hput].
    exact Hput.
Defined.

(** ** Labels without a name or a confidence *)

Section MalformedLabels.

Context {World : Type}.
Variable rt : Runtime World.

Lemma print_label_row_skips (d : gmap string PyVal) (st : State World) :
  lacks_key d → print_label_row rt (PyDict d) st = (Ok tt, st).
Proof.
  intros Hlacks. unfold print_label_row. simpl Py.contains.
  destruct (d !! "Name") as [name|] eqn:Hname; run_script; [|done].
  destruct Hlacks as [?|Hconf]; [congruence|]. rewrite Hconf. by run_script.
Qed.

Lemma label_attribute_lacks (d : gmap string PyVal) :
  lacks_key d
  → label_attribute rt (PyDict d) = Raise (KeyError "Name")
    ∨ label_attribute rt (PyDict d) = Raise (KeyError "Confidence").
Proof.
  intros Hlacks. unfold label_attribute. simpl.
  destruct (d !! "Name") as [name|] eqn:Hname; simpl; [|by left].
  destruct Hlacks as [?|Hconf]; [congruence|]. rewrite Hconf. by right.
Qed.

Lemma comprehension_cons {A B : Type} (f : A → PyResult B) (x : A)
  (rest : list A) :
  comprehension f (x :: rest)
  = (y ← f x; ys ← comprehension f rest; Ok (y :: ys)).
Proof. reflexivity. Qed.

(** On a list of dicts the comprehension ends at the first one that misses a
    key. *)
Lemma comprehension_lacks (ds : list (gmap string PyVal)) :
  Exists lacks_key ds
  → comprehension (label_attribute rt) (PyDict <$> ds)
    = Raise (KeyError "Name")
    ∨ comprehension (label_attribute rt) (PyDict <$> ds)
      = Raise (KeyError "Confidence").
Proof.
  induction ds as [|d ds IH]; intros Hex; [by apply Exists_nil in Hex|].
  rewrite fmap_cons, comprehension_cons.
  destruct (d !! "Name") as [name|] eqn:Hname.
  2:{ left. unfold label_attribute. simpl. by rewrite Hname. }
  destruct (d !! "Confidence") as [confidence|] eqn:Hconf.
  2:{ right. unfold label_attribute. simpl. by rewrite Hname, Hconf. }
  rewrite (label_attribute_ok rt (PyDict d) name confidence)
    by (by exists d).
  apply Exists_cons in Hex as [[Hd|Hd]|Hex]; [congruence..|].
  destruct (IH Hex) as [-> | ->]; auto.
Qed.

End MalformedLabels.

(** C10. A label that is a dict without ['Name'] or without ['Confidence'] is
    left out of the printed table without a word, and when a list of dict
    labels holds such a label the store step raises a [KeyError] for one of
    the two keys: the exception leaves [store_results_in_dynamodb], whose
    handler is for [ClientError] only, and the table is never called. *)
Theorem label_without_key_breaks_store {World : Type} (rt : Runtime World)
  (cfg : Config) :
  (∀ d st, lacks_key d → print_label_row rt (PyDict d) st = (Ok tt, st))
  ∧ (∀ image_name (ds : list (gmap string PyVal)) timestamp st,
       Exists lacks_key ds
       → ∃ key,
           (key = "Name" ∨ key = "Confidence")
           ∧ store_results_in_dynamodb rt cfg image_name
               (PyList (PyDict <$> ds)) timestamp st
             = (Raise (KeyError key), st)).
Proof.
  split.
  - intros d st. apply print_label_row_skips.
  - intros image_name ds timestamp st Hex.
    unfold store_results_in_dynamodb, try_except_ClientError,
      labels_confidences.
    rewrite bind_run. unfold lift. simpl Py.iter. simpl mbind at 1.
    destruct (comprehension_lacks rt ds Hex) as [-> | ->]; eauto.
Qed.

Lemma label_without_key_breaks_store_witness :
  lacks_key {[ "Confidence" := PyFloat 98.2%float ]}
  ∧ print_label_row Scenario.rt
      (PyDict {[ "Confidence" := PyFloat 98.2%float ]}) Scenario.start
    = (Ok tt, Scenario.start)
  ∧ ∃ key,
      (key = "Name" ∨ key = "Confidence")
      ∧ store_results_in_dynamodb Scenario.rt Scenario.cfg "a.jpg"
          (PyList (PyDict <$> [ {[ "Confidence" := PyFloat 98.2%float ]} ]))
          (PyStr "Unknown") Scenario.start
        = (Raise (KeyError key), Scenario.start).
Proof.
  assert (lacks_key {[ "Confidence" := PyFloat 98.2%float ]}) as Hlacks.
  { left. reflexivity. }
  split; [exact Hlacks|]. split.
  - apply (proj1 (label_without_key_breaks_store Scenario.rt Scenario.cfg)).
    exact Hlacks.
  - apply (proj2 (label_without_key_breaks_store Scenario.rt Scenario.cfg)).
    apply Exists_cons_hd. exact Hlacks.
Defined.

(** ** One turn of the loop *)

Section Turn.

Context {World : Type}.
Variable rt : Runtime World.
Variable cfg : Config.
Implicit Types st : State World.

Lemma upload_image_to_s3_run (image_path : string) st :
  let call := S3UploadFile image_path (BUCKET cfg) (upload_key image_path) in
  upload_image_to_s3 rt cfg image_path st
  = match s3_upload_file rt (world st) image_path (BUCKET cfg)
            (upload_key image_path) with
    | (Ok _, w) => (Ok true, mkState w (trace st ++ [call]))
    | (Raise (ClientError msg), w) =>
        (Ok false,
         mkState w
           (trace st
            ++ [call;
                Print ("Error uploading " +:+ image_path +:+ " to S3: "
                       +:+ msg)]))
    | (Raise e, w) => (Raise e, mkState w (trace st ++ [call]))
    end.
Proof.
  intros call. unfold upload_image_to_s3, try_except_ClientError, upload_file.
  rewrite bind_run. fold call.
  destruct (s3_upload_file _ _ _ _ _) as [[[]|[msg|key|msg|cls msg]] w];
    by run_script.
Qed.

Lemma analyze_image_using_rekognition_run (image_name : string) st :
  let call :=
    RekognitionDetectLabels (BUCKET cfg) (analysis_key image_name) in
  analyze_image_using_rekognition rt cfg image_name st
  = match rekognition_detect_labels rt (world st) (BUCKET cfg)
            (analysis_key image_name) with
    | (Ok response, w) =>
        match Py.getitem response "Labels" with
        | Ok labels =>
            (Ok (labels, response), mkState w (trace st ++ [call]))
        | Raise e => (Raise e, mkState w (trace st ++ [call]))
        end
    | (Raise (ClientError msg), w) =>
        (Ok (PyList [], PyNone),
         mkState w
           (trace st
            ++ [call;
                Print ("Error analyzing " +:+ image_name
                       +:+ " with Rekognition: " +:+ msg)]))
    | (Raise e, w) => (Raise e, mkState w (trace st ++ [call]))
    end.
Proof.
  intros call.
  unfold analyze_image_using_rekognition, try_except_ClientError,
    detect_labels.
  rewrite bind_run. fold call.
  destruct (rekognition_detect_labels _ _ _ _)
    as [[response|[msg|key|msg|cls msg]] w]; try by run_script.
  run_script. destruct response; try done; simpl.
  by destruct (d !! "Labels").
Qed.

Lemma image_size_validator_run (image_path : string) (size : Z) st :
  os_getsize rt (world st) image_path = Ok size
  → image_size_validator rt image_path None st
    = (Ok (size <=? default_max_size)%Z, st).
Proof.
  intros H. unfold image_size_validator, getsize. by rewrite bind_run, H.
Qed.

(** A turn that returns hands the state over to the rest of the batch. *)
Lemma process_batch_next (image : string) (rest : list string) st st' :
  process_image rt cfg image st = (Ok tt, st')
  → process_batch rt cfg (image :: rest) st = process_batch rt cfg rest st'.
Proof.
  intros H. unfold process_batch. by rewrite for_each_cons, H.
Qed.

Section Image.

Variable image : string.
Hypothesis image_suffix : Str.endswith_any image image_suffixes = true.

Let image_path : string := os_path.join IMAGES_FOLDER image.

Lemma process_image_too_large (size : Z) st :
  os_getsize rt (world st) image_path = Ok size
  → (size > default_max_size)%Z
  → process_image rt cfg image st
    = (Ok tt,
       emit (Print ("Image " +:+ image_path +:+ " is too large. Skipping..."))
         st).
Proof.
  intros Hsize Hgt. unfold process_image, pipeline. rewrite image_suffix.
  rewrite bind_run. fold image_path.
  rewrite (image_size_validator_run _ _ _ Hsize).
  by rewrite (proj2 (Z.leb_gt _ _)) by lia.
Qed.

(** Once the size check has passed, the turn is the announcement, the
    upload and what follows it. *)
Lemma process_image_valid (size : Z) st :
  os_getsize rt (world st) image_path = Ok size
  → (size ≤ default_max_size)%Z
  → process_image rt cfg image st
    = match upload_image_to_s3 rt cfg image_path
              (emit (announce cfg image_path) st) with
      | (Ok true, st2) => analyze_and_store rt cfg image image_path st2
      | (Ok false, st2) =>
          (Ok tt,
           emit (Print ("Failed to upload " +:+ image_path
                        +:+ " to S3. Skipping analysis.")) st2)
      | (Raise e, st2) => (Raise e, st2)
      end.
Proof.
  intros Hsize Hle. unfold process_image, pipeline. rewrite image_suffix.
  rewrite bind_run. fold image_path.
  rewrite (image_size_validator_run _ _ _ Hsize).
  rewrite (proj2 (Z.leb_le _ _)) by lia. cbn [negb].
  unfold upload_and_analyze. rewrite bind_run. unfold print at 1.
  rewrite bind_run. fold (announce cfg image_path).
  by destruct (upload_image_to_s3 _ _ _ _) as [[[]|e] st2].
Qed.

Lemma analyze_and_store_failed (labels response : PyVal) st st' :
  analyze_image_using_rekognition rt cfg (os_path.basename image) st
  = (Ok (labels, response), st')
  → Py.truthy labels = false ∨ response = PyNone
  → analyze_and_store rt cfg image image_path st
    = (Ok tt,
       emit (Print ("Failed to analyze " +:+ image_path
                    +:+ ". Skipping analysis.")) st').
Proof.
  intros Hrun Hfailed. unfold analyze_and_store. rewrite bind_run, Hrun.
  destruct Hfailed as [-> | ->]; [done|].
  by rewrite orb_true_r.
Qed.

Lemma analyze_and_store_analyzed (labels response : PyVal) st st' :
  analyze_image_using_rekognition rt cfg (os_path.basename image) st
  = (Ok (labels, response), st')
  → Py.truthy labels = true
  → response ≠ PyNone
  → analyze_and_store rt cfg image image_path st
    = report_and_store rt cfg image labels response st'.
Proof.
  intros Hrun Htruthy Hresponse. unfold analyze_and_store.
  rewrite bind_run, Hrun, Htruthy. by destruct response.
Qed.

End Image.

End Turn.

(** ** Stage gating *)

(** C1. For a file with an image suffix, whatever the rest of the batch: if
    its size exceeds the maximum, the turn prints one line and makes no client
    call; if the upload returns [False], no analysis and no store call has
    been made when the turn ends; if the analysis returns an empty label list
    or [None] as the response, no store call has been made when the turn
    ends; and each time the batch goes on with the files that remain. *)
Theorem stages_run_only_after_success {World : Type} (rt : Runtime World)
  (cfg : Config) (image : string) (rest : list string) (st : State World) :
  Str.endswith_any image image_suffixes = true →
  let image_path := os_path.join IMAGES_FOLDER image in
  (∀ size,
     os_getsize rt (world st) image_path = Ok size
     → (size > 5242880)%Z
     → process_batch rt cfg (image :: rest) st
       = process_batch rt cfg rest
           (mkState (world st)
              (trace st
               ++ [Print ("Image " +:+ image_path
                          +:+ " is too large. Skipping...")])))
  ∧ (∀ size st2,
       os_getsize rt (world st) image_path = Ok size
       → (size ≤ 5242880)%Z
       → upload_image_to_s3 rt cfg image_path (emit (announce cfg image_path) st)
         = (Ok false, st2)
       → process_batch rt cfg (image :: rest) st
         = process_batch rt cfg rest
             (emit (Print ("Failed to upload " +:+ image_path
                           +:+ " to S3. Skipping analysis.")) st2)
         ∧ ∃ evs,
             trace st2 = (trace st ++ evs)%list
             ∧ Forall (fun e => ¬ is_analysis e ∧ ¬ is_store e) evs)
  ∧ (∀ size st2 labels response st3,
       os_getsize rt (world st) image_path = Ok size
       → (size ≤ 5242880)%Z
       → upload_image_to_s3 rt cfg image_path (emit (announce cfg image_path) st)
         = (Ok true, st2)
       → analyze_image_using_rekognition rt cfg (os_path.basename image) st2
         = (Ok (labels, response), st3)
       → Py.truthy labels = false ∨ response = PyNone
       → process_batch rt cfg (image :: rest) st
         = process_batch rt cfg rest
             (emit (Print ("Failed to analyze " +:+ image_path
                           +:+ ". Skipping analysis.")) st3)
         ∧ ∃ evs,
             trace st3 = (trace st ++ evs)%list
             ∧ Forall (fun e => ¬ is_store e) evs).
Proof.
  intros Hsuffix image_path. split; [|split].
  - intros size Hsize Hgt. apply process_batch_next.
    by apply (process_image_too_large rt cfg image Hsuffix size).
  - intros size st2 Hsize Hle Hupload. split.
    + apply process_batch_next.
      rewrite (process_image_valid rt cfg image Hsuffix size st Hsize Hle).
      fold image_path. by rewrite Hupload.
    + destruct (emits_upload_image_to_s3 rt cfg
                  (fun e => ¬ is_analysis e ∧ ¬ is_store e)
                  ltac:(by simpl; auto) image_path ltac:(by simpl; auto)
                  (emit (announce cfg image_path) st))
        as (evs & Htrace & Hall).
      rewrite Hupload in Htrace. simpl in Htrace.
      exists (announce cfg image_path :: evs). split.
      * by rewrite Htrace, <- app_assoc.
      * constructor; [by simpl; auto | done].
  - intros size st2 labels response st3 Hsize Hle Hupload Hanalyze Hfailed.
    split.
    + apply process_batch_next.
      rewrite (process_image_valid rt cfg image Hsuffix size st Hsize Hle).
      fold image_path. rewrite Hupload.
      by apply (analyze_and_store_failed rt cfg image labels response).
    + destruct (emits_upload_image_to_s3 rt cfg (fun e => ¬ is_store e)
                  ltac:(by simpl; auto) image_path ltac:(by simpl; auto)
                  (emit (announce cfg image_path) st))
        as (evs1 & Htrace1 & Hall1).
      rewrite Hupload in Htrace1. simpl in Htrace1.
      destruct (emits_analyze_image_using_rekognition rt cfg
                  (fun e => ¬ is_store e) ltac:(by simpl; auto)
                  (os_path.basename image) ltac:(by simpl; auto) st2)
        as (evs2 & Htrace2 & Hall2).
      rewrite Hanalyze in Htrace2. simpl in Htrace2.
      exists (announce cfg image_path :: evs1 ++ evs2)%list. split.
      * rewrite Htrace2, Htrace1, <- !app_assoc. done.
      * constructor; [by simpl; auto|]. by apply Forall_app.
Qed.

Lemma stages_run_only_after_success_witness :
  let upload_down :=
    Scenario.make Scenario.listing (Raise (ClientError "AccessDenied"))
      (Ok Scenario.cat_response) (Ok tt) in
  let no_labels :=
    Scenario.make Scenario.listing (Ok tt)
      (Ok (PyDict {[ "Labels" := PyList [] ]})) (Ok tt) in
  let announced :=
    Print (Str.nl +:+ "Uploading images/a.jpg to S3 bucket pixels"
           +:+ " with prefix rekognition-input/") in
  let upload :=
    S3UploadFile "images/a.jpg" (Some "pixels") "rekognition-input/a.jpg" in
  process_batch Scenario.rt Scenario.cfg ["b.png"; "c.txt"] Scenario.start
  = process_batch Scenario.rt Scenario.cfg ["c.txt"]
      (mkState [] [Print "Image images/b.png is too large. Skipping..."])
  ∧ process_batch upload_down Scenario.cfg ["a.jpg"; "c.txt"] Scenario.start
    = process_batch upload_down Scenario.cfg ["c.txt"]
        (mkState []
           [ announced; upload;
             Print "Error uploading images/a.jpg to S3: AccessDenied";
             Print "Failed to upload images/a.jpg to S3. Skipping analysis." ])
  ∧ process_batch no_labels Scenario.cfg ["a.jpg"; "c.txt"] Scenario.start
    = process_batch no_labels Scenario.cfg ["c.txt"]
        (mkState []
           [ announced; upload;
             RekognitionDetectLabels (Some "pixels") "rekognition-input/a.jpg";
             Print "Failed to analyze images/a.jpg. Skipping analysis." ]).
Proof.
  intros upload_down no_labels announced upload. split; [|split].
  - apply (proj1 (stages_run_only_after_success Scenario.rt Scenario.cfg
                    "b.png" ["c.txt"] Scenario.start eq_refl) 6291456).
    + reflexivity.
    + lia.
  - apply (proj1 (proj1 (proj2
             (stages_run_only_after_success upload_down Scenario.cfg
                "a.jpg" ["c.txt"] Scenario.start eq_refl))
             4194304
             (mkState []
                [ announced; upload;
                  Print "Error uploading images/a.jpg to S3: AccessDenied" ])
             eq_refl ltac:(lia) eq_refl)).
  - apply (proj1 (proj2 (proj2
             (stages_run_only_after_success no_labels Scenario.cfg
                "a.jpg" ["c.txt"] Scenario.start eq_refl))
             4194304 (mkState [] [announced; upload])
             (PyList []) (PyDict {[ "Labels" := PyList [] ]})
             (mkState []
                [ announced; upload;
                  RekognitionDetectLabels (Some "pixels")
                    "rekognition-input/a.jpg" ])
             eq_refl ltac:(lia) eq_refl eq_refl (or_introl eq_refl))).
Defined.

(** ** Failure isolation *)


(** An exception of another class than [ClientError], raised by the upload
    call, is not turned into [False]: it leaves [upload_image_to_s3]. *)
Lemma upload_other_exception_propagates {World : Type} (rt : Runtime World)
  (cfg : Config) (image_path cls msg : string) (w : World)
  (st : State World) :
  s3_upload_file rt (world st) image_path (BUCKET cfg) (upload_key image_path)
  = (Raise (OtherException cls msg), w)
  → upload_image_to_s3 rt cfg image_path st
    = (Raise (OtherException cls msg),
       mkState w
         (trace st
          ++ [S3UploadFile image_path (BUCKET cfg) (upload_key image_path)])).
Proof. intros H. by rewrite upload_image_to_s3_run, H. Qed.




(** ** The branch tag *)

(** X10. Without [GITHUB_REF] in the environment the branch is ["main"]. *)
Lemma branch_default (environ : list (string * string)) :
  getenv environ "GITHUB_REF" = None → BRANCH (load_config environ) = "main".
Proof.
  intros H. unfold load_config, getenv_default. simpl. by rewrite H.
Qed.

(** Of a ref, only what follows its last slash is kept. *)
Lemma branch_of_ref_last_segment (front back : string) :
  branch_of_ref (front +:+ String "/" back) = branch_of_ref back.
Proof. apply last_split_app_sep. Qed.

(** For a branch whose name has no slash, the ref gives back the name. *)
Lemma branch_of_plain_ref (branch : string) :
  (∀ a b, branch ≠ a +:+ String "/" b)
  → branch_of_ref ("refs/heads/" +:+ branch) = branch.
Proof.
  intros Hplain.
  change ("refs/heads/" +:+ branch) with ("refs/heads" +:+ String "/" branch).
  rewrite branch_of_ref_last_segment. unfold branch_of_ref.
  by rewrite split_no_sep.
Qed.

(** Every record a batch hands to the table carries the branch of the
    configuration. *)
Lemma records_carry_branch {World : Type} (rt : Runtime World) (cfg : Config)
  (images : list string) (st : State World) :
  ∃ evs,
    trace (process_batch rt cfg images st).2 = (trace st ++ evs)%list
    ∧ Forall (fun e =>
                match e with
                | DynamoDBPutItem _ item =>
                    Py.getitem item "branch"
                    = Ok (PyDict {[ "S" := PyStr (BRANCH cfg) ]})
                | _ => True
                end) evs.
Proof.
  eapply emits_weaken; [|apply emits_process_batch].
  intros [line|? ? ?|? ?|table item]; try done.
  by intros (image & _ & _ & attrs & timestamp & ->).
Qed.

(** C8. On the ref of a branch whose name holds a slash, such as
    [refs/heads/feature/login], the value computed at line 17 is the last
    component of the name, ["login"], and not the name of the branch. *)
Theorem branch_of_nested_ref :
  BRANCH (load_config [("GITHUB_REF", "refs/heads/feature/login")]) = "login".
Proof. reflexivity. Qed.

(** ** The scenario of the specification *)

(** With [a.jpg] of 4 MiB, [b.png] of 6 MiB and [c.txt] in the directory and
    every service up, the table ends with one item, the record of [a.jpg]. *)
Example scenario_stores_one_record :
  main Scenario.rt Scenario.cfg Scenario.start
  = (Ok tt,
     mkState
       [ record_item Scenario.cfg "a.jpg"
           [ label_entry (PyStr "Cat") "98.2";
             label_entry (PyStr "Animal") "95.0" ]
           (PyStr "Wed, 04 Nov 2026 10:00:00 GMT") ]
       [ Print (Str.nl +:+ "Uploading images/a.jpg to S3 bucket pixels"
                +:+ " with prefix rekognition-input/");
         S3UploadFile "images/a.jpg" (Some "pixels") "rekognition-input/a.jpg";
         RekognitionDetectLabels (Some "pixels") "rekognition-input/a.jpg";
         Print (Str.nl +:+ "Rekognition response for 'a.jpg':");
         Print "Label                Confidence (%) ";
         Print "-----------------------------------";
         Print "Cat                  98.20          ";
         Print "Animal               95.00          ";
         DynamoDBPutItem (Some "labels")
           (record_item Scenario.cfg "a.jpg"
              [ label_entry (PyStr "Cat") "98.2";
                label_entry (PyStr "Animal") "95.0" ]
              (PyStr "Wed, 04 Nov 2026 10:00:00 GMT"));
         Print (Str.nl +:+ "Successfully stored results for 'a.jpg'"
                +:+ " in DynamoDB.");
         Print "Image images/b.png is too large. Skipping...";
         Print "Skipping non-image file: c.txt" ]).
Proof. vm_compute. reflexivity. Qed.

(** * Further properties of the script *)

(** ** The client calls of one turn *)

Section Calls.

Context {World : Type}.
Implicit Types st : State World.

Lemma calls_of_app (evs1 evs2 : list Event) :
  calls_of (evs1 ++ evs2) = (calls_of evs1 ++ calls_of evs2)%list.
Proof. apply List.filter_app. Qed.

Lemma calls_of_prints (evs : list Event) :
  Forall is_print evs → calls_of evs = [].
Proof.
  induction 1 as [|[line| | |] evs Hprint _ IH]; simpl; try done.
Qed.

Lemma makes_calls_weaken {A : Type} (P Q : list Event → Prop)
  (m : M World A) :
  (∀ calls, P calls → Q calls) → makes_calls P m → makes_calls Q m.
Proof.
  intros HPQ Hm st. destruct (Hm st) as (evs & Htrace & HP). eauto.
Qed.

Lemma makes_calls_silent {A : Type} (m : M World A) :
  emits is_print m → makes_calls (fun calls => calls = []) m.
Proof.
  intros Hm st. destruct (Hm st) as (evs & Htrace & Hprints).
  exists evs. split; [done|]. by apply calls_of_prints.
Qed.

(** The calls of a sequence are the calls of its first part, followed, when
    that part returns, by the calls of the rest. *)
Lemma makes_calls_bind {A B : Type} (P Q R : list Event → Prop)
  (m : M World A) (f : A → M World B) :
  makes_calls P m
  → (∀ a, makes_calls Q (f a))
  → (∀ calls, P calls → R calls)
  → (∀ calls1 calls2, P calls1 → Q calls2 → R (calls1 ++ calls2)%list)
  → makes_calls R (m ≫= f).
Proof.
  intros Hm Hf Hstop Hgo st. rewrite bind_run.
  destruct (Hm st) as (evs1 & Htrace1 & HP).
  destruct (m st) as [[a|e] st1]; simpl in *.
  - destruct (Hf a st1) as (evs2 & Htrace2 & HQ).
    exists (evs1 ++ evs2)%list. rewrite Htrace2, Htrace1, app_assoc.
    split; [done|]. rewrite calls_of_app. auto.
  - exists evs1. auto.
Qed.

Lemma makes_calls_after_silence {A B : Type} (R : list Event → Prop)
  (m : M World A) (f : A → M World B) :
  emits is_print m → R [] → (∀ a, makes_calls R (f a))
  → makes_calls R (m ≫= f).
Proof.
  intros Hm Hnil Hf.
  apply (makes_calls_bind (fun calls => calls = []) R R);
    [by apply makes_calls_silent | done | by intros ? -> | by intros ? ? ->].
Qed.

Lemma makes_calls_print (R : list Event → Prop) (line : string) :
  R [] → makes_calls R (print line : M World unit).
Proof.
  intros Hnil. eapply makes_calls_weaken;
    [|apply makes_calls_silent, emits_print; exact I].
  by intros ? ->.
Qed.

Variable rt : Runtime World.
Variable cfg : Config.

(** Whatever its outcome, [upload_image_to_s3] calls the store once. *)
Lemma upload_image_to_s3_calls (image_path : string) :
  makes_calls
    (fun calls =>
       calls = [S3UploadFile image_path (BUCKET cfg) (upload_key image_path)])
    (upload_image_to_s3 rt cfg image_path).
Proof.
  intros st. rewrite upload_image_to_s3_run.
  destruct (s3_upload_file _ _ _ _ _) as [[[]|[msg|key|msg|cls msg]] w];
    simpl; eauto.
Qed.

(** Whatever its outcome, the analyzer calls the service once. *)
Lemma analyze_image_using_rekognition_calls (image_name : string) :
  makes_calls
    (fun calls =>
       calls = [RekognitionDetectLabels (BUCKET cfg)
                  (analysis_key image_name)])
    (analyze_image_using_rekognition rt cfg image_name).
Proof.
  intros st. rewrite analyze_image_using_rekognition_run.
  destruct (rekognition_detect_labels _ _ _ _)
    as [[response|[msg|key|msg|cls msg]] w]; simpl; eauto.
  destruct (Py.getitem response "Labels"); simpl; eauto.
Qed.

(** The recorder writes at most once: not at all when the attributes cannot
    be built, once otherwise. *)
Lemma store_results_in_dynamodb_calls (image_name : string)
  (labels timestamp : PyVal) :
  makes_calls
    (fun calls =>
       calls = []
       ∨ ∃ attrs,
           calls = [DynamoDBPutItem (DYNAMODB cfg)
                      (record_item cfg image_name attrs timestamp)])
    (store_results_in_dynamodb rt cfg image_name labels timestamp).
Proof.
  intros st. destruct (labels_confidences rt labels) as [attrs|e] eqn:Hattrs.
  - rewrite (store_results_run rt cfg image_name labels timestamp attrs st
               Hattrs).
    simpl.
    destruct (dynamodb_put_item _ _ _ _) as [[[]|[msg|key|msg|cls msg]] w];
      simpl; eauto.
  - unfold store_results_in_dynamodb, try_except_ClientError.
    rewrite bind_run. unfold lift at 1. rewrite Hattrs.
    destruct e as [msg|key|msg|cls msg]; run_script;
      first [ by exists []; rewrite app_nil_r; auto
            | eexists [_]; split; [done|]; simpl; auto ].
Qed.

End Calls.

(** The calls of the branch taken by a file with an image suffix. *)
Lemma pipeline_makes_calls {World : Type} (rt : Runtime World) (cfg : Config)
  (image : string) :
  makes_calls (stage_prefix cfg image) (pipeline rt cfg image).
Proof.
  assert (stage_prefix cfg image []) as Hnil by (by left).
  unfold pipeline.
  apply makes_calls_after_silence;
    [apply emits_image_size_validator; exact (fun _ => I) | done |].
  intros valid. destruct valid; cbn [negb]; [|by apply makes_calls_print].
  unfold upload_and_analyze.
  apply makes_calls_after_silence; [by apply emits_print | done |].
  intros _.
  eapply (makes_calls_bind _ (fun calls =>
            calls = []
            ∨ calls = [RekognitionDetectLabels (BUCKET cfg)
                         (PREFIX +:+ os_path.basename image)]
            ∨ ∃ attrs timestamp,
                calls = [ RekognitionDetectLabels (BUCKET cfg)
                            (PREFIX +:+ os_path.basename image);
                          DynamoDBPutItem (DYNAMODB cfg)
                            (record_item cfg (os_path.basename image) attrs
                               timestamp) ]));
    [apply upload_image_to_s3_calls | | |].
  - intros uploaded. destruct uploaded; cbn [negb];
      [|apply makes_calls_print; by left].
    unfold analyze_and_store.
    eapply (makes_calls_bind _ (fun calls =>
              calls = []
              ∨ ∃ attrs timestamp,
                  calls = [ DynamoDBPutItem (DYNAMODB cfg)
                              (record_item cfg (os_path.basename image) attrs
                                 timestamp) ]));
      [apply analyze_image_using_rekognition_calls | | |].
    + intros [labels response].
      destruct (negb (Py.truthy labels) || Py.is_None response);
        [apply makes_calls_print; by left|].
      unfold report_and_store.
      apply makes_calls_after_silence;
        [apply emits_print_table; exact (fun _ => I) | by left |].
      intros _.
      apply makes_calls_after_silence; [apply emits_lift | by left |].
      intros timestamp.
      eapply (makes_calls_bind _ (fun calls => calls = []));
        [apply store_results_in_dynamodb_calls | | |].
      * intros stored. destruct stored; by apply makes_calls_print.
      * intros calls [->|[attrs ->]]; eauto.
      * intros calls1 calls2 [->|[attrs ->]] ->; simpl; eauto.
    + intros calls ->. unfold analysis_key. auto.
    + intros calls1 calls2 -> [->|(attrs & timestamp & ->)];
        unfold analysis_key; simpl; eauto.
  - intros calls ->. unfold stage_prefix, upload_key.
    rewrite basename_join. auto.
  - intros calls1 calls2 -> Hrest. unfold stage_prefix, upload_key.
    rewrite basename_join.
    destruct Hrest as [->|[->|(attrs & timestamp & ->)]]; simpl; eauto 10.
Qed.

(** X1. Whatever the services answer and however the turn ends, the client
    calls made for one file of the directory are, in this order, at most one
    upload, then at most one analysis, then at most one write of a record:
    no stage is tried again and none runs before an earlier one. *)
Theorem process_image_calls_in_stage_order {World : Type}
  (rt : Runtime World) (cfg : Config) (image : string) (st : State World) :
  ∃ evs,
    trace (process_image rt cfg image st).2 = (trace st ++ evs)%list
    ∧ stage_prefix cfg image (calls_of evs).
Proof.
  unfold process_image.
  destruct (Str.endswith_any image image_suffixes).
  - apply pipeline_makes_calls.
  - exists [Print ("Skipping non-image file: " +:+ image)].
    split; [done | by left].
Qed.

(** X2. Across a batch the client calls come file by file, in the order of
    the listing: the calls of the whole batch are, for the files reached
    before the batch ended, the calls of the first, then those of the second
    and so on, each file having at most one upload, one analysis and one
    write, in that order. *)
Theorem batch_calls_file_by_file {World : Type} (rt : Runtime World)
  (cfg : Config) (images : list string) (st : State World) :
  ∃ evs groups,
    trace (process_batch rt cfg images st).2 = (trace st ++ evs)%list
    ∧ calls_of evs = concat groups
    ∧ Forall2 (stage_prefix cfg) (take (length groups) images) groups.
Proof.
  revert st. induction images as [|image images IH]; intros st.
  - exists [], []. simpl. by rewrite app_nil_r.
  - assert (∃ evs, trace (process_image rt cfg image st).2
                   = (trace st ++ evs)%list
                   ∧ stage_prefix cfg image (calls_of evs))
      as (evs1 & Htrace1 & Hstage).
    { unfold process_image.
      destruct (Str.endswith_any image image_suffixes).
      - apply pipeline_makes_calls.
      - exists [Print ("Skipping non-image file: " +:+ image)].
        split; [done | by left]. }
    unfold process_batch in *. rewrite for_each_cons.
    destruct (process_image rt cfg image st) as [[[]|e] st1]; simpl in *.
    + destruct (IH st1) as (evs2 & groups & Htrace2 & Hcalls & Hgroups).
      exists (evs1 ++ evs2)%list, (calls_of evs1 :: groups).
      rewrite Htrace2, Htrace1, app_assoc, calls_of_app, Hcalls.
      split; [done|]. split; [done|]. simpl. by constructor.
    + exists evs1, [calls_of evs1]. simpl. rewrite app_nil_r.
      split; [done|]. split; [done|]. rewrite take_0.
      constructor; [done | constructor].
Qed.

(** ** The batch as a whole *)

Lemma for_each_app {World A : Type} (l1 l2 : list A)
  (body : A → M World unit) (st : State World) :
  for_each (l1 ++ l2) body st
  = match for_each l1 body st with
    | (Ok _, st1) => for_each l2 body st1
    | (Raise e, st1) => (Raise e, st1)
    end.
Proof.
  revert st. induction l1 as [|x l1 IH]; intros st; [done|].
  rewrite <- app_comm_cons, !for_each_cons.
  destruct (body x st) as [[[]|e] st1]; [apply IH | done].
Qed.

(** X3. A listing in two parts is processed as the first part and then, from
    the state this leaves and if it has not raised, the second part; when
    the first part raises, the second is not processed at all. *)
Theorem process_batch_app {World : Type} (rt : Runtime World) (cfg : Config)
  (images1 images2 : list string) (st : State World) :
  process_batch rt cfg (images1 ++ images2) st
  = match process_batch rt cfg images1 st with
    | (Ok _, st1) => process_batch rt cfg images2 st1
    | (Raise e, st1) => (Raise e, st1)
    end.
Proof. apply for_each_app. Qed.

(** X4. When a turn raises, the batch ends there with the same exception
    and in the state of that turn: the files listed after it get no client
    call and no printed line. *)
Theorem batch_stops_at_first_exception {World : Type} (rt : Runtime World)
  (cfg : Config) (before : list string) (image : string)
  (after : list string) (e : PyExc) (st st1 st2 : State World) :
  process_batch rt cfg before st = (Ok tt, st1)
  → process_image rt cfg image st1 = (Raise e, st2)
  → process_batch rt cfg (before ++ image :: after) st = (Raise e, st2).
Proof.
  intros Hbefore Himage. unfold process_batch in *.
  by rewrite for_each_app, Hbefore, for_each_cons, Himage.
Qed.

Lemma batch_stops_at_first_exception_witness :
  let nameless :=
    Scenario.make Scenario.listing (Ok tt) (Ok nameless_response) (Ok tt) in
  let st1 := mkState [] [Print "Skipping non-image file: c.txt"] in
  let st2 :=
    mkState []
      [ Print "Skipping non-image file: c.txt";
        Print (Str.nl +:+ "Uploading images/a.jpg to S3 bucket pixels"
               +:+ " with prefix rekognition-input/");
        S3UploadFile "images/a.jpg" (Some "pixels") "rekognition-input/a.jpg";
        RekognitionDetectLabels (Some "pixels") "rekognition-input/a.jpg";
        Print (Str.nl +:+ "Rekognition response for 'a.jpg':");
        Print "Label                Confidence (%) ";
        Print "-----------------------------------" ] in
  process_batch nameless Scenario.cfg ["c.txt"] Scenario.start = (Ok tt, st1)
  ∧ process_image nameless Scenario.cfg "a.jpg" st1
    = (Raise (KeyError "Name"), st2)
  ∧ process_batch nameless Scenario.cfg (["c.txt"] ++ "a.jpg" :: ["d.jpeg"])
      Scenario.start
    = (Raise (KeyError "Name"), st2).
Proof.
  intros nameless st1 st2.
  assert (process_batch nameless Scenario.cfg ["c.txt"] Scenario.start
          = (Ok tt, st1)) as Hbefore by reflexivity.
  assert (process_image nameless Scenario.cfg "a.jpg" st1
          = (Raise (KeyError "Name"), st2)) as Himage
    by (vm_compute; reflexivity).
  split; [exact Hbefore|]. split; [exact Himage|].
  exact (batch_stops_at_first_exception nameless Scenario.cfg ["c.txt"]
           "a.jpg" ["d.jpeg"] (KeyError "Name") Scenario.start st1 st2
           Hbefore Himage).
Defined.

(** X5. A listing without any name ending in [.jpg], [.jpeg] or [.png] is
    processed to the end without a client call: the batch returns, the world
    is as before, and the trace has gained one line per file, in the order of
    the listing. *)
Theorem batch_without_images_only_prints {World : Type} (rt : Runtime World)
  (cfg : Config) (images : list string) (st : State World) :
  Forall (fun image => Str.endswith_any image image_suffixes = false) images
  → process_batch rt cfg images st
    = (Ok tt, mkState (world st) (trace st ++ (skip_line <$> images))).
Proof.
  intros Hall. revert st.
  induction Hall as [|image images Himage _ IH]; intros st.
  - unfold process_batch. simpl. rewrite app_nil_r. by destruct st.
  - unfold process_batch in *. rewrite for_each_cons.
    unfold process_image at 1. rewrite Himage. unfold print, emit.
    rewrite IH. simpl. by rewrite <- app_assoc.
Qed.

Lemma batch_without_images_only_prints_witness :
  Forall (fun image => Str.endswith_any image image_suffixes = false)
    ["c.txt"; "photo.JPG"; "notes.jpg.bak"]
  ∧ process_batch Scenario.rt Scenario.cfg
      ["c.txt"; "photo.JPG"; "notes.jpg.bak"] Scenario.start
    = (Ok tt,
       mkState []
         [ Print "Skipping non-image file: c.txt";
           Print "Skipping non-image file: photo.JPG";
           Print "Skipping non-image file: notes.jpg.bak" ]).
Proof.
  assert (Forall (fun image => Str.endswith_any image image_suffixes = false)
            ["c.txt"; "photo.JPG"; "notes.jpg.bak"]) as Hall
    by (repeat constructor).
  split; [exact Hall|].
  exact (batch_without_images_only_prints Scenario.rt Scenario.cfg
           ["c.txt"; "photo.JPG"; "notes.jpg.bak"] Scenario.start Hall).
Defined.




(** ** The branch tag, continued *)

(** No field of a split holds the separator. *)
Lemma split_fields_no_sep (sep : ascii) (s : string) :
  Forall (fun field => ∀ a b, field ≠ a +:+ String sep b) (Str.split sep s).
Proof.
  induction s as [|c s IH]; simpl.
  - constructor; [|done]. intros [|] b; discriminate.
  - destruct (Ascii.eqb_spec c sep) as [->|Hc].
    + constructor; [|done]. intros [|] b; discriminate.
    + destruct (Str.split sep s) as [|hd tl]; simpl.
      * constructor; [|done]. intros [|x [|y a]] b; try discriminate.
        intros [= -> _]. done.
      * apply Forall_cons in IH as [Hhd Htl]. constructor; [|done].
        intros [|x a] b.
        -- rewrite append_nil_l. intros [= -> _]. done.
        -- rewrite append_cons. intros [= _ ->]. by apply (Hhd a b).
Qed.

Lemma last_item_Forall (P : string → Prop) (l : list string) :
  l ≠ [] → Forall P l → P (Str.last_item l).
Proof.
  unfold Str.last_item. induction l as [|x l IH]; [done|].
  intros _ [Hx Hl]%Forall_cons. destruct l as [|y l]; [done|].
  apply IH; done.
Qed.

(** X8. Whatever the ref, the branch computed at line 17 holds no slash. *)
Theorem branch_has_no_slash (environ : list (string * string))
  (a b : string) :
  BRANCH (load_config environ) ≠ a +:+ String "/" b.
Proof.
  unfold load_config, branch_of_ref. simpl.
  apply (last_item_Forall (fun field => ∀ a b, field ≠ a +:+ String "/" b));
    [apply split_nonempty | apply split_fields_no_sep].
Qed.

(** the only way the environment gives a ref *)
Lemma getenv_default_some (environ : list (string * string))
  (key dflt value : string) :
  getenv environ key = Some value → getenv_default environ key dflt = value.
Proof. intros H. unfold getenv_default. by rewrite H. Qed.

(** X9. The branch of the configuration is what follows the last slash of
    [GITHUB_REF], and the whole of it when it holds no slash: the name of
    the branch for [refs/heads/<name>] when the name holds no slash, the tag
    for [refs/tags/<tag>], and [merge] for [refs/pull/<number>/merge]. *)
Theorem branch_is_last_component (environ : list (string * string))
  (ref : string) :
  getenv environ "GITHUB_REF" = Some ref →
  (∀ front back,
     ref = front +:+ String "/" back
     → (∀ a b, back ≠ a +:+ String "/" b)
     → BRANCH (load_config environ) = back)
  ∧ ((∀ a b, ref ≠ a +:+ String "/" b) → BRANCH (load_config environ) = ref).
Proof.
  intros Href. unfold load_config. simpl.
  rewrite (getenv_default_some _ _ _ _ Href). split.
  - intros front back -> Hplain. rewrite branch_of_ref_last_segment.
    unfold branch_of_ref. by rewrite split_no_sep.
  - intros Hplain. unfold branch_of_ref. by rewrite split_no_sep.
Qed.

Lemma no_slash_in_merge (a b : string) : "merge" ≠ a +:+ String "/" b.
Proof.
  destruct a as [|c1 [|c2 [|c3 [|c4 [|c5 [|c6 a]]]]]]; discriminate.
Qed.

Lemma branch_is_last_component_witness :
  getenv [("GITHUB_REF", "refs/pull/42/merge")] "GITHUB_REF"
  = Some "refs/pull/42/merge"
  ∧ BRANCH (load_config [("GITHUB_REF", "refs/pull/42/merge")]) = "merge"
  ∧ BRANCH (load_config [("GITHUB_REF", "merge")]) = "merge".
Proof.
  split; [reflexivity|]. split.
  - exact (proj1 (branch_is_last_component
                    [("GITHUB_REF", "refs/pull/42/merge")]
                    "refs/pull/42/merge" eq_refl)
             "refs/pull/42" "merge" eq_refl no_slash_in_merge).
  - exact (proj2 (branch_is_last_component [("GITHUB_REF", "merge")]
                    "merge" eq_refl) no_slash_in_merge).
Defined.

Lemma branch_default_witness :
  getenv [("AWS_REGION", "us-east-1")] "GITHUB_REF" = None
  ∧ BRANCH (load_config [("AWS_REGION", "us-east-1")]) = "main".
Proof.
  split; [reflexivity|].
  exact (branch_default [("AWS_REGION", "us-east-1")] eq_refl).
Defined.

(** X11. From the dump to the last file, every record a run hands to the
    table carries under ['branch'] the one value computed from the
    environment before the loop. *)
Theorem run_tags_every_record_with_one_branch {World : Type}
  (rt : Runtime World) (environ : list (string * string))
  (st : State World) :
  ∃ evs,
    trace (script rt environ st).2 = (trace st ++ evs)%list
    ∧ Forall (fun e =>
                match e with
                | DynamoDBPutItem _ item =>
                    Py.getitem item "branch"
                    = Ok (PyDict
                            {[ "S" := PyStr (BRANCH (load_config environ)) ]})
                | _ => True
                end) evs.
Proof.
  revert st. unfold script. apply emits_bind.
  - unfold dump_environment. apply emits_bind; [by apply emits_print|].
    intros _. apply emits_for_each. intros [key value] _.
    by apply emits_print.
  - intros _. unfold main. apply emits_bind; [by apply emits_nothing|].
    intros images. eapply emits_weaken; [|apply emits_process_batch].
    intros [line|? ? ?|? ?|table item]; try done.
    by intros (image & _ & _ & attrs & timestamp & ->).
Qed.

(** ** The start of the run *)

Lemma dump_lines_run {World : Type} (environ : list (string * string))
  (st : State World) :
  for_each environ (fun '(key, value) => print (key +:+ ": " +:+ value)) st
  = (Ok tt, mkState (world st) (trace st ++ (environ_line <$> environ))).
Proof.
  revert st. induction environ as [|[key value] environ IH]; intros st.
  - simpl. rewrite app_nil_r. by destruct st.
  - rewrite for_each_cons. unfold print at 1, emit. rewrite IH. simpl.
    by rewrite <- app_assoc.
Qed.

(** X12. The run starts by printing a heading and then, for every variable
    of the environment, in order, its name and its value, whatever the
    variable; this touches no client and cannot raise, and the main block
    then runs from that state with the constants read from the same
    environment. *)
Theorem script_dumps_environment_then_runs_main {World : Type}
  (rt : Runtime World) (environ : list (string * string))
  (st : State World) :
  dump_environment environ st
  = (Ok tt,
     mkState (world st)
       (trace st
        ++ Print "All Environment Variables:" :: (environ_line <$> environ)))
  ∧ script rt environ st
    = main rt (load_config environ)
        (mkState (world st)
           (trace st
            ++ Print "All Environment Variables:"
               :: (environ_line <$> environ)))
  ∧ ∀ key value,
      (key, value) ∈ environ
      → Print (key +:+ ": " +:+ value)
        ∈ trace (dump_environment environ st).2.
Proof.
  assert (dump_environment environ st
          = (Ok tt,
             mkState (world st)
               (trace st
                ++ Print "All Environment Variables:"
                   :: (environ_line <$> environ)))) as Hdump.
  { unfold dump_environment. rewrite bind_run. unfold print at 1, emit.
    rewrite dump_lines_run. simpl. by rewrite <- app_assoc. }
  split; [exact Hdump|]. split.
  - unfold script. by rewrite bind_run, Hdump.
  - intros key value Hin. rewrite Hdump. simpl.
    apply elem_of_app. right. apply elem_of_cons. right.
    apply (list_elem_of_fmap_2 environ_line _ _ Hin).
Qed.

(** ** Answers the script does not expect *)

(** X13. When the answer of the service is a dict without the key
    ['Labels'], the analyzer raises [KeyError] for that key after the call
    has been made: the handler, which is for [ClientError], lets it
    through. *)
Theorem answer_without_labels_raises {World : Type} (rt : Runtime World)
  (cfg : Config) (image_name : string) (response : gmap string PyVal)
  (w : World) (st : State World) :
  rekognition_detect_labels rt (world st) (BUCKET cfg)
    (analysis_key image_name)
  = (Ok (PyDict response), w)
  → response !! "Labels" = None
  → analyze_image_using_rekognition rt cfg image_name st
    = (Raise (KeyError "Labels"),
       mkState w
         (trace st
          ++ [RekognitionDetectLabels (BUCKET cfg)
                (analysis_key image_name)])).
Proof.
  intros Hdetect Hlabels.
  rewrite analyze_image_using_rekognition_run, Hdetect. simpl.
  by rewrite Hlabels.
Qed.

Lemma answer_without_labels_raises_witness :
  let rt :=
    Scenario.make Scenario.listing (Ok tt)
      (Ok (PyDict {[ "LabelModelVersion" := PyStr "3.0" ]})) (Ok tt) in
  analyze_image_using_rekognition rt Scenario.cfg "a.jpg" Scenario.start
  = (Raise (KeyError "Labels"),
     mkState []
       [RekognitionDetectLabels (Some "pixels") "rekognition-input/a.jpg"])
  ∧ main rt Scenario.cfg Scenario.start
    = (Raise (KeyError "Labels"),
       mkState []
         [ Print (Str.nl +:+ "Uploading images/a.jpg to S3 bucket pixels"
                  +:+ " with prefix rekognition-input/");
           S3UploadFile "images/a.jpg" (Some "pixels")
             "rekognition-input/a.jpg";
           RekognitionDetectLabels (Some "pixels") "rekognition-input/a.jpg"
         ]).
Proof.
  intros rt. split.
  - exact (answer_without_labels_raises rt Scenario.cfg "a.jpg"
             {[ "LabelModelVersion" := PyStr "3.0" ]} [] Scenario.start
             eq_refl eq_refl).
  - vm_compute. reflexivity.
Defined.

(** ** Exceptions that leave a stage *)

Section StageExceptions.

Context {World : Type}.
Variable rt : Runtime World.
Variable cfg : Config.
Implicit Types st : State World.

Lemma process_image_getsize_raises (image : string) (e : PyExc) st :
  Str.endswith_any image image_suffixes = true
  → os_getsize rt (world st) (os_path.join IMAGES_FOLDER image) = Raise e
  → process_image rt cfg image st = (Raise e, st).
Proof.
  intros Hsuffix Hsize. unfold process_image, pipeline. rewrite Hsuffix.
  rewrite bind_run. unfold image_size_validator, getsize.
  by rewrite bind_run, Hsize.
Qed.

Lemma analyze_and_store_raises (image image_path : string) (e : PyExc)
  st st' :
  analyze_image_using_rekognition rt cfg (os_path.basename image) st
  = (Raise e, st')
  → analyze_and_store rt cfg image image_path st = (Raise e, st').
Proof. intros H. unfold analyze_and_store. by rewrite bind_run, H. Qed.

Lemma report_and_store_table_raises (image : string)
  (labels response : PyVal) (e : PyExc) st st' :
  print_table rt image labels st = (Raise e, st')
  → report_and_store rt cfg image labels response st = (Raise e, st').
Proof. intros H. unfold report_and_store. by rewrite bind_run, H. Qed.

Lemma report_and_store_timestamp_raises (image : string)
  (labels response : PyVal) (e : PyExc) st st' :
  print_table rt image labels st = (Ok tt, st')
  → response_timestamp response = Raise e
  → report_and_store rt cfg image labels response st = (Raise e, st').
Proof.
  intros Htable Htimestamp. unfold report_and_store.
  rewrite bind_run, Htable, bind_run. unfold lift at 1.
  by rewrite Htimestamp.
Qed.

Lemma report_and_store_store_raises (image : string)
  (labels response timestamp : PyVal) (e : PyExc) st st1 st2 :
  print_table rt image labels st = (Ok tt, st1)
  → response_timestamp response = Ok timestamp
  → store_results_in_dynamodb rt cfg (os_path.basename image) labels
      timestamp st1
    = (Raise e, st2)
  → report_and_store rt cfg image labels response st = (Raise e, st2).
Proof.
  intros Htable Htimestamp Hstore. unfold report_and_store.
  rewrite bind_run, Htable, bind_run. unfold lift at 1.
  by rewrite Htimestamp, bind_run, Hstore.
Qed.

End StageExceptions.

(** X14. The main block has no handler of its own: for a file with an image
    suffix, an exception that leaves the size check, the upload function, the
    analyzer, the printing of the table, the reading of the timestamp or the
    recorder leaves the turn, in the state reached when it was raised; when
    it leaves the table or the timestamp, the recorder has not been
    called. *)
Theorem stage_exception_leaves_turn {World : Type} (rt : Runtime World)
  (cfg : Config) (image : string) (e : PyExc) (st : State World) :
  Str.endswith_any image image_suffixes = true →
  let image_path := os_path.join IMAGES_FOLDER image in
  let upload_run :=
    upload_image_to_s3 rt cfg image_path (emit (announce cfg image_path) st)
  in
  let analysis_run :=
    analyze_image_using_rekognition rt cfg (os_path.basename image) in
  (os_getsize rt (world st) image_path = Raise e
   → process_image rt cfg image st = (Raise e, st))
  ∧ ∀ size,
      os_getsize rt (world st) image_path = Ok size
      → (size ≤ 5242880)%Z
      → (∀ st2,
           upload_run = (Raise e, st2)
           → process_image rt cfg image st = (Raise e, st2))
        ∧ (∀ st2 st3,
             upload_run = (Ok true, st2)
             → analysis_run st2 = (Raise e, st3)
             → process_image rt cfg image st = (Raise e, st3))
        ∧ ∀ st2 labels response st3,
            upload_run = (Ok true, st2)
            → analysis_run st2 = (Ok (labels, response), st3)
            → Py.truthy labels = true
            → response ≠ PyNone
            → (∀ st4,
                 print_table rt image labels st3 = (Raise e, st4)
                 → process_image rt cfg image st = (Raise e, st4))
              ∧ (∀ st4,
                   print_table rt image labels st3 = (Ok tt, st4)
                   → response_timestamp response = Raise e
                   → process_image rt cfg image st = (Raise e, st4))
              ∧ (∀ st4 timestamp st5,
                   print_table rt image labels st3 = (Ok tt, st4)
                   → response_timestamp response = Ok timestamp
                   → store_results_in_dynamodb rt cfg
                       (os_path.basename image) labels timestamp st4
                     = (Raise e, st5)
                   → process_image rt cfg image st = (Raise e, st5)).
Proof.
  intros Hsuffix image_path upload_run analysis_run.
  subst upload_run analysis_run image_path. split.
  { by apply process_image_getsize_raises. }
  intros size Hsize Hle.
  pose proof (process_image_valid rt cfg image Hsuffix size st Hsize Hle)
    as Hturn.
  split; [|split].
  - intros st2 Hupload. by rewrite Hturn, Hupload.
  - intros st2 st3 Hupload Hanalysis. rewrite Hturn, Hupload.
    by apply analyze_and_store_raises.
  - intros st2 labels response st3 Hupload Hanalysis Htruthy Hresponse.
    rewrite Hturn, Hupload.
    rewrite (analyze_and_store_analyzed rt cfg image labels response st2 st3
               Hanalysis Htruthy Hresponse).
    split; [|split].
    + intros st4 Htable. by apply report_and_store_table_raises.
    + intros st4 Htable Htimestamp.
      by apply report_and_store_timestamp_raises.
    + intros st4 timestamp st5 Htable Htimestamp Hstore.
      by apply (report_and_store_store_raises rt cfg image labels response
                  timestamp e st3 st4 st5).
Qed.

Lemma stage_exception_leaves_turn_witness :
  let with_answer answer :=
    Scenario.make Scenario.listing (Ok tt) (Ok answer) (Ok tt) in
  let failed := OtherException "S3UploadFailedError" "Failed to upload" in
  let upload_raises :=
    Scenario.make Scenario.listing (Raise failed)
      (Ok Scenario.cat_response) (Ok tt) in
  let no_labels := with_answer (PyDict {[ "Labels2" := PyList [] ]}) in
  let worded :=
    with_answer
      (PyDict {[ "Labels" :=
         PyList [ PyDict (<[ "Name" := PyStr "Cat" ]>
                            {[ "Confidence" := PyStr "high" ]}) ] ]}) in
  let no_headers :=
    with_answer
      (PyDict (<[ "Labels" := Scenario.cat_labels ]>
                 {[ "ResponseMetadata" := PyDict ∅ ]})) in
  let nameless := with_answer nameless_response in
  (∃ st', process_image Scenario.rt Scenario.cfg "ghost.png" Scenario.start
          = (Raise (OtherException "FileNotFoundError" "images/ghost.png"),
             st'))
  ∧ (∃ st', process_image upload_raises Scenario.cfg "a.jpg" Scenario.start
            = (Raise failed, st'))
  ∧ (∃ st', process_image no_labels Scenario.cfg "a.jpg" Scenario.start
            = (Raise (KeyError "Labels"), st'))
  ∧ (∃ st', process_image worded Scenario.cfg "a.jpg" Scenario.start
            = (Raise (OtherException "ValueError" "Unknown format code"),
               st'))
  ∧ (∃ st', process_image no_headers Scenario.cfg "a.jpg" Scenario.start
            = (Raise (KeyError "HTTPHeaders"), st'))
  ∧ (∃ st', process_image nameless Scenario.cfg "a.jpg" Scenario.start
            = (Raise (KeyError "Name"), st')).
Proof.
  intros with_answer failed upload_raises no_labels worded no_headers
    nameless.
  split; [|split; [|split; [|split; [|split]]]].
  - eexists.
    apply (proj1 (stage_exception_leaves_turn Scenario.rt Scenario.cfg
                    "ghost.png" _ Scenario.start eq_refl)).
    reflexivity.
  - destruct (proj2 (stage_exception_leaves_turn upload_raises Scenario.cfg
                       "a.jpg" failed Scenario.start eq_refl)
                4194304 eq_refl ltac:(lia)) as (Hupload & _ & _).
    eexists. apply Hupload. reflexivity.
  - destruct (proj2 (stage_exception_leaves_turn no_labels Scenario.cfg
                       "a.jpg" (KeyError "Labels") Scenario.start eq_refl)
                4194304 eq_refl ltac:(lia)) as (_ & Hanalysis & _).
    eexists. eapply Hanalysis; reflexivity.
  - destruct (proj2 (stage_exception_leaves_turn worded Scenario.cfg
                       "a.jpg"
                       (OtherException "ValueError" "Unknown format code")
                       Scenario.start eq_refl)
                4194304 eq_refl ltac:(lia)) as (_ & _ & Hlate).
    edestruct Hlate as (Htable & _ & _);
      [reflexivity | reflexivity | reflexivity | discriminate |].
    eexists. apply Htable. reflexivity.
  - destruct (proj2 (stage_exception_leaves_turn no_headers Scenario.cfg
                       "a.jpg" (KeyError "HTTPHeaders") Scenario.start
                       eq_refl)
                4194304 eq_refl ltac:(lia)) as (_ & _ & Hlate).
    edestruct Hlate as (_ & Htimestamp & _);
      [reflexivity | reflexivity | reflexivity | discriminate |].
    eexists. apply Htimestamp; reflexivity.
  - destruct (proj2 (stage_exception_leaves_turn nameless Scenario.cfg
                       "a.jpg" (KeyError "Name") Scenario.start eq_refl)
                4194304 eq_refl ltac:(lia)) as (_ & _ & Hlate).
    edestruct Hlate as (_ & _ & Hstore);
      [reflexivity | reflexivity | reflexivity | discriminate |].
    eexists. eapply Hstore; reflexivity.
Defined.

(** X15. The test of line 145 is for ['ResponseMetadata'] alone: when the
    answer has that key with a dict that lacks ['HTTPHeaders'], or whose
    headers lack ['date'], the timestamp is not ["Unknown"]; reading it
    raises [KeyError] for the missing key. *)
Theorem timestamp_of_partial_metadata_raises
  (response metadata : gmap string PyVal) :
  response !! "ResponseMetadata" = Some (PyDict metadata) →
  (metadata !! "HTTPHeaders" = None
   → response_timestamp (PyDict response) = Raise (KeyError "HTTPHeaders"))
  ∧ (∀ headers,
       metadata !! "HTTPHeaders" = Some (PyDict headers)
       → headers !! "date" = None
       → response_timestamp (PyDict response) = Raise (KeyError "date")).
Proof.
  intros Hmetadata. unfold response_timestamp. simpl.
  rewrite Hmetadata. simpl. split.
  - by intros ->.
  - intros headers -> Hdate. simpl. by rewrite Hdate.
Qed.

Lemma timestamp_of_partial_metadata_raises_witness :
  let bare : gmap string PyVal := {[ "RequestId" := PyStr "r-1" ]} in
  let headers : gmap string PyVal :=
    {[ "content-type" := PyStr "application/json" ]} in
  response_timestamp (PyDict {[ "ResponseMetadata" := PyDict bare ]})
  = Raise (KeyError "HTTPHeaders")
  ∧ response_timestamp
      (PyDict {[ "ResponseMetadata" :=
                   PyDict {[ "HTTPHeaders" := PyDict headers ]} ]})
    = Raise (KeyError "date").
Proof.
  intros bare headers. split.
  - assert (({[ "ResponseMetadata" := PyDict bare ]} : gmap string PyVal)
              !! "ResponseMetadata" = Some (PyDict bare)) as Hmetadata
      by reflexivity.
    apply (proj1 (timestamp_of_partial_metadata_raises _ _ Hmetadata)).
    reflexivity.
  - assert (({[ "ResponseMetadata" :=
                  PyDict {[ "HTTPHeaders" := PyDict headers ]} ]}
             : gmap string PyVal)
              !! "ResponseMetadata"
            = Some (PyDict {[ "HTTPHeaders" := PyDict headers ]}))
      as Hmetadata by reflexivity.
    apply (proj2 (timestamp_of_partial_metadata_raises _ _ Hmetadata)
             headers); reflexivity.
Defined.

(** ** The printed table *)

(** X16. For a label that has a name and a confidence, the row of the table
    is the name formatted with [<20], a space, and the confidence formatted
    with [<15.2f]; the test of line 141 is for the presence of the keys
    only, so when either value cannot be formatted the exception of [format]
    leaves the loop body and nothing is printed for the label. *)
Theorem print_label_row_of_label {World : Type} (rt : Runtime World)
  (label name confidence : PyVal) (st : State World) :
  label_with label name confidence →
  (∀ e, py_format rt name "<20" = Raise e
        → print_label_row rt label st = (Raise e, st))
  ∧ (∀ col1 e,
       py_format rt name "<20" = Ok col1
       → py_format rt confidence "<15.2f" = Raise e
       → print_label_row rt label st = (Raise e, st))
  ∧ (∀ col1 col2,
       py_format rt name "<20" = Ok col1
       → py_format rt confidence "<15.2f" = Ok col2
       → print_label_row rt label st
         = (Ok tt,
            mkState (world st) (trace st ++ [Print (col1 +:+ " " +:+ col2)]))).
Proof.
  intros (d & -> & Hname & Hconfidence). unfold print_label_row.
  simpl Py.contains. simpl Py.getitem. rewrite Hname, Hconfidence.
  split; [|split].
  - intros e Hformat. run_script. by rewrite Hformat.
  - intros col1 e Hformat1 Hformat2. run_script. rewrite Hformat1.
    run_script. by rewrite Hformat2.
  - intros col1 col2 Hformat1 Hformat2. run_script. rewrite Hformat1.
    run_script. by rewrite Hformat2.
Qed.

Lemma print_label_row_of_label_witness :
  print_label_row Scenario.rt
    (PyDict (<[ "Name" := PyNone ]> {[ "Confidence" := PyFloat 98.2%float ]}))
    Scenario.start
  = (Raise (TypeError "unsupported format string"), Scenario.start)
  ∧ print_label_row Scenario.rt
      (PyDict (<[ "Name" := PyStr "Cat" ]> {[ "Confidence" := PyStr "high" ]}))
      Scenario.start
    = (Raise (OtherException "ValueError" "Unknown format code"),
       Scenario.start)
  ∧ print_label_row Scenario.rt
      (PyDict (<[ "Name" := PyStr "Cat" ]>
                 {[ "Confidence" := PyFloat 98.2%float ]}))
      Scenario.start
    = (Ok tt, mkState [] [Print "Cat                  98.20          "]).
Proof.
  split; [|split].
  - refine (proj1 (print_label_row_of_label Scenario.rt _ PyNone
                     (PyFloat 98.2%float) Scenario.start _) _ _).
    + eexists. split; [reflexivity|]. split; reflexivity.
    + reflexivity.
  - refine (proj1 (proj2 (print_label_row_of_label Scenario.rt _
                            (PyStr "Cat") (PyStr "high") Scenario.start _))
              _ _ _ _).
    + eexists. split; [reflexivity|]. split; reflexivity.
    + reflexivity.
    + reflexivity.
  - refine (proj2 (proj2 (print_label_row_of_label Scenario.rt _
                            (PyStr "Cat") (PyFloat 98.2%float)
                            Scenario.start _))
              (Str.ljust 20 "Cat") (Str.ljust 15 "98.20") _ _).
    + eexists. split; [reflexivity|]. split; reflexivity.
    + reflexivity.
    + reflexivity.
Defined.

Lemma print_label_row_prints {World : Type} (rt : Runtime World)
  (label name confidence : PyVal) (col1 col2 : string) (st : State World) :
  label_with label name confidence
  → py_format rt name "<20" = Ok col1
  → py_format rt confidence "<15.2f" = Ok col2
  → print_label_row rt label st
    = (Ok tt, mkState (world st) (trace st ++ [Print (col1 +:+ " " +:+ col2)])).
Proof.
  intros (d & -> & Hname & Hconfidence) Hformat1 Hformat2.
  unfold print_label_row. simpl Py.contains. simpl Py.getitem.
  rewrite Hname, Hconfidence. run_script. rewrite Hformat1. run_script.
  by rewrite Hformat2.
Qed.

Lemma print_rows_run {World : Type} (rt : Runtime World)
  (labels : list PyVal) (rows : list (option string)) (st : State World) :
  Forall2 (row_of rt) labels rows
  → for_each labels (print_label_row rt) st
    = (Ok tt, mkState (world st) (trace st ++ (Print <$> omap id rows))).
Proof.
  intros Hrows. revert st.
  induction Hrows as [|label row labels rows Hrow _ IH]; intros st.
  - simpl. rewrite app_nil_r. by destruct st.
  - rewrite for_each_cons. destruct row as [line|]; simpl in Hrow.
    + destruct Hrow as (name & confidence & col1 & col2 & Hlabel & Hformat1
                        & Hformat2 & ->).
      rewrite (print_label_row_prints rt label name confidence col1 col2 st
                 Hlabel Hformat1 Hformat2).
      rewrite IH. simpl. by rewrite <- app_assoc.
    + destruct Hrow as (d & -> & Hlacks).
      rewrite (print_label_row_skips rt d st Hlacks). by rewrite IH.
Qed.

(** X17. For a list of dict labels, the table is the line naming the file,
    the heading with a field of 20 and a field of 15 characters, a rule of 35
    dashes, and then one row for each label that has both keys, in the order
    of the list, the labels that miss a key being passed over; printing it
    leaves the world as it was. *)
Theorem print_table_rows {World : Type} (rt : Runtime World) (image : string)
  (labels : list PyVal) (rows : list (option string)) (st : State World) :
  Forall2 (row_of rt) labels rows
  → print_table rt image (PyList labels) st
    = (Ok tt,
       mkState (world st)
         (trace st
          ++ [ Print (Str.nl +:+ "Rekognition response for '" +:+ image
                      +:+ "':");
               Print "Label                Confidence (%) ";
               Print "-----------------------------------" ]
          ++ (Print <$> omap id rows))).
Proof.
  intros Hrows. unfold print_table. run_script.
  rewrite (print_rows_run rt labels rows _ Hrows). simpl.
  by rewrite <- !app_assoc.
Qed.

Lemma print_table_rows_witness :
  let cat : PyVal :=
    PyDict (<[ "Name" := PyStr "Cat" ]>
              {[ "Confidence" := PyFloat 98.2%float ]}) in
  let nameless : PyVal := PyDict {[ "Confidence" := PyFloat 95.0%float ]} in
  let animal : PyVal :=
    PyDict (<[ "Name" := PyStr "Animal" ]>
              {[ "Confidence" := PyFloat 95.0%float ]}) in
  print_table Scenario.rt "a.jpg" (PyList [cat; nameless; animal])
    Scenario.start
  = (Ok tt,
     mkState []
       [ Print (Str.nl +:+ "Rekognition response for 'a.jpg':");
         Print "Label                Confidence (%) ";
         Print "-----------------------------------";
         Print "Cat                  98.20          ";
         Print "Animal               95.00          " ]).
Proof.
  intros cat nameless animal.
  assert (Forall2 (row_of Scenario.rt) [cat; nameless; animal]
            [ Some "Cat                  98.20          "; None;
              Some "Animal               95.00          " ]) as Hrows.
  { constructor; [|constructor; [|constructor; [|constructor]]].
    - exists (PyStr "Cat"), (PyFloat 98.2%float), (Str.ljust 20 "Cat"),
        (Str.ljust 15 "98.20").
      split; [|split; [|split]]; try reflexivity.
      eexists. split; [reflexivity|]. split; reflexivity.
    - eexists. split; [reflexivity|]. left. reflexivity.
    - exists (PyStr "Animal"), (PyFloat 95.0%float), (Str.ljust 20 "Animal"),
        (Str.ljust 15 "95.00").
      split; [|split; [|split]]; try reflexivity.
      eexists. split; [reflexivity|]. split; reflexivity. }
  exact (print_table_rows Scenario.rt "a.jpg" [cat; nameless; animal] _
           Scenario.start Hrows).
Defined.

(** ** Exceptions of other classes *)

(** X18. An exception of a class other than [ClientError] raised by the
    upload, the analysis or the write call is not caught by the function
    that makes the call: the function raises it, after the call and without
    printing anything. *)
Theorem other_exceptions_pass_through {World : Type} (rt : Runtime World)
  (cfg : Config) (e : PyExc) :
  (∀ msg, e ≠ ClientError msg) →
  (∀ image_path w (st : State World),
     s3_upload_file rt (world st) image_path (BUCKET cfg)
       (upload_key image_path)
     = (Raise e, w)
     → upload_image_to_s3 rt cfg image_path st
       = (Raise e,
          mkState w
            (trace st
             ++ [S3UploadFile image_path (BUCKET cfg)
                   (upload_key image_path)])))
  ∧ (∀ image_name w (st : State World),
       rekognition_detect_labels rt (world st) (BUCKET cfg)
         (analysis_key image_name)
       = (Raise e, w)
       → analyze_image_using_rekognition rt cfg image_name st
         = (Raise e,
            mkState w
              (trace st
               ++ [RekognitionDetectLabels (BUCKET cfg)
                     (analysis_key image_name)])))
  ∧ (∀ image_name labels attrs timestamp w (st : State World),
       labels_confidences rt labels = Ok attrs
       → dynamodb_put_item rt (world st) (DYNAMODB cfg)
           (record_item cfg image_name attrs timestamp)
         = (Raise e, w)
       → store_results_in_dynamodb rt cfg image_name labels timestamp st
         = (Raise e,
            mkState w
              (trace st
               ++ [DynamoDBPutItem (DYNAMODB cfg)
                     (record_item cfg image_name attrs timestamp)]))).
Proof.
  intros Hother. split; [|split].
  - intros image_path w st H. rewrite upload_image_to_s3_run, H.
    destruct e as [msg| | |]; [by destruct (Hother msg) | done..].
  - intros image_name w st H.
    rewrite analyze_image_using_rekognition_run, H.
    destruct e as [msg| | |]; [by destruct (Hother msg) | done..].
  - intros image_name labels attrs timestamp w st Hattrs H.
    rewrite (store_results_run rt cfg image_name labels timestamp attrs st
               Hattrs).
    simpl. rewrite H.
    destruct e as [msg| | |]; [by destruct (Hother msg) | done..].
Qed.

Lemma other_exceptions_pass_through_witness :
  let failed := OtherException "EndpointConnectionError" "no route" in
  let down :=
    Scenario.make Scenario.listing (Raise failed) (Raise failed)
      (Raise failed) in
  upload_image_to_s3 down Scenario.cfg "images/a.jpg" Scenario.start
  = (Raise failed,
     mkState []
       [S3UploadFile "images/a.jpg" (Some "pixels") "rekognition-input/a.jpg"])
  ∧ analyze_image_using_rekognition down Scenario.cfg "a.jpg" Scenario.start
    = (Raise failed,
       mkState []
         [RekognitionDetectLabels (Some "pixels") "rekognition-input/a.jpg"])
  ∧ store_results_in_dynamodb down Scenario.cfg "a.jpg" (PyList [])
      (PyStr "Unknown") Scenario.start
    = (Raise failed,
       mkState []
         [DynamoDBPutItem (Some "labels")
            (record_item Scenario.cfg "a.jpg" [] (PyStr "Unknown"))]).
Proof.
  intros failed down.
  assert (∀ msg, failed ≠ ClientError msg) as Hother by discriminate.
  destruct (other_exceptions_pass_through down Scenario.cfg failed Hother)
    as (Hupload & Hanalysis & Hstore).
  split; [|split].
  - exact (Hupload "images/a.jpg" [] Scenario.start eq_refl).
  - exact (Hanalysis "a.jpg" [] Scenario.start eq_refl).
  - exact (Hstore "a.jpg" (PyList []) [] (PyStr "Unknown") [] Scenario.start
             eq_refl eq_refl).
Defined.

(** ** Keys *)

Lemma append_inj_l (prefix a b : string) :
  prefix +:+ a = prefix +:+ b → a = b.
Proof.
  induction prefix as [|c prefix IH]; [done|].
  rewrite !append_cons. intros [= H]. by apply IH.
Qed.

(** X19. Two files get the same object key exactly when they have the same
    basename, whatever directories they are joined to; so two names of one
    listing, which hold no slash, get the same key only when they are the
    same name, and the same goes for the name under which the analysis looks
    the object up. *)
Theorem object_keys_collide_only_on_basename (dir1 dir2 name1 name2 : string) :
  (upload_key (os_path.join dir1 name1) = upload_key (os_path.join dir2 name2)
   ↔ os_path.basename name1 = os_path.basename name2)
  ∧ (analysis_key (os_path.basename name1)
     = analysis_key (os_path.basename name2)
     ↔ os_path.basename name1 = os_path.basename name2)
  ∧ ((∀ a b, name1 ≠ a +:+ String "/" b)
     → (∀ a b, name2 ≠ a +:+ String "/" b)
     → upload_key (os_path.join dir1 name1)
       = upload_key (os_path.join dir2 name2)
     → name1 = name2).
Proof.
  unfold upload_key, analysis_key. rewrite !basename_join.
  split; [|split].
  - split; [apply append_inj_l | by intros ->].
  - split; [apply append_inj_l | by intros ->].
  - intros Hplain1 Hplain2 Hkeys%append_inj_l.
    by rewrite !basename_no_slash in Hkeys.
Qed.

Lemma no_slash_in_a_jpg (a b : string) : "a.jpg" ≠ a +:+ String "/" b.
Proof.
  destruct a as [|c1 [|c2 [|c3 [|c4 [|c5 [|c6 a]]]]]]; discriminate.
Qed.

Lemma object_keys_collide_only_on_basename_witness :
  (∀ a b, "a.jpg" ≠ a +:+ String "/" b)
  ∧ (upload_key (os_path.join "images/" "a.jpg")
     = upload_key (os_path.join "archive/2026" "a.jpg")
     → "a.jpg" = "a.jpg").
Proof.
  split; [exact no_slash_in_a_jpg|].
  exact (proj2 (proj2 (object_keys_collide_only_on_basename "images/"
                         "archive/2026" "a.jpg" "a.jpg"))
           no_slash_in_a_jpg no_slash_in_a_jpg).
Defined.

(** ** What [True] means *)

(** X20. [upload_image_to_s3] returns [True] only when the upload call
    returned, and [store_results_in_dynamodb] returns [True] only when the
    attributes were built and the write call returned; in both cases that
    one call is all the function has added to the trace. *)
Theorem true_means_the_call_returned {World : Type} (rt : Runtime World)
  (cfg : Config) (st st' : State World) :
  (∀ image_path,
     upload_image_to_s3 rt cfg image_path st = (Ok true, st')
     → ∃ w,
         s3_upload_file rt (world st) image_path (BUCKET cfg)
           (upload_key image_path)
         = (Ok tt, w)
         ∧ st' = mkState w
                   (trace st
                    ++ [S3UploadFile image_path (BUCKET cfg)
                          (upload_key image_path)]))
  ∧ (∀ image_name labels timestamp,
       store_results_in_dynamodb rt cfg image_name labels timestamp st
       = (Ok true, st')
       → ∃ attrs w,
           labels_confidences rt labels = Ok attrs
           ∧ dynamodb_put_item rt (world st) (DYNAMODB cfg)
               (record_item cfg image_name attrs timestamp)
             = (Ok tt, w)
           ∧ st' = mkState w
                     (trace st
                      ++ [DynamoDBPutItem (DYNAMODB cfg)
                            (record_item cfg image_name attrs timestamp)])).
Proof.
  split.
  - intros image_path. rewrite upload_image_to_s3_run.
    destruct (s3_upload_file _ _ _ _ _)
      as [[[]|[msg|key|msg|cls msg]] w] eqn:Hupload;
      simpl; intros [= <-]. by exists w.
  - intros image_name labels timestamp.
    destruct (labels_confidences rt labels) as [attrs|e] eqn:Hattrs.
    + rewrite (store_results_run rt cfg image_name labels timestamp attrs st
                 Hattrs).
      simpl.
      destruct (dynamodb_put_item _ _ _ _)
        as [[[]|[msg|key|msg|cls msg]] w] eqn:Hput;
        simpl; intros [= <-]. by exists attrs, w.
    + unfold store_results_in_dynamodb, try_except_ClientError.
      rewrite bind_run. unfold lift at 1. rewrite Hattrs.
      destruct e as [msg|key|msg|cls msg]; run_script; discriminate.
Qed.

Lemma true_means_the_call_returned_witness :
  let item :=
    record_item Scenario.cfg "a.jpg"
      [ label_entry (PyStr "Cat") "98.2";
        label_entry (PyStr "Animal") "95.0" ]
      (PyStr "Unknown") in
  (∃ w,
     s3_upload_file Scenario.rt [] "images/a.jpg" (Some "pixels")
       "rekognition-input/a.jpg"
     = (Ok tt, w))
  ∧ ∃ attrs w,
      labels_confidences Scenario.rt Scenario.cat_labels = Ok attrs
      ∧ dynamodb_put_item Scenario.rt [] (Some "labels")
          (record_item Scenario.cfg "a.jpg" attrs (PyStr "Unknown"))
        = (Ok tt, w).
Proof.
  intros item. split.
  - destruct (proj1 (true_means_the_call_returned Scenario.rt Scenario.cfg
                       Scenario.start
                       (mkState []
                          [S3UploadFile "images/a.jpg" (Some "pixels")
                             "rekognition-input/a.jpg"]))
                "images/a.jpg" eq_refl) as (w & Hcall & _).
    exists w. exact Hcall.
  - destruct (proj2 (true_means_the_call_returned Scenario.rt Scenario.cfg
                       Scenario.start
                       (mkState [item]
                          [DynamoDBPutItem (Some "labels") item]))
                "a.jpg" Scenario.cat_labels (PyStr "Unknown") eq_refl)
      as (attrs & w & Hattrs & Hcall & _).
    exists attrs, w. split; [exact Hattrs | exact Hcall].
Defined.
